(** * Gradient-descent template (template_1.py): a shallow embedding

    The Python module defines a learning-rate schedule, a hierarchy of
    descent classes on top of numpy arrays, and a factory.  Python integers
    are modelled by [Z], one-dimensional arrays by lists and two-dimensional
    arrays by a record that carries the column count.  Array entries are
    real numbers.  The floats of the schedule are real numbers with the
    range of a binary64: a result at or beyond the rounding boundary of the
    largest float is an infinity (or the [OverflowError] CPython raises
    there), a result at or below half the smallest subnormal is zero;
    rounding inside the range is not modelled.  Exceptions are explicit: a pure
    computation returns a [result], a method that may touch the instance or
    the random generator is a function from the [world] before the call to
    the outcome and the [world] after it.

    Line 127 of the module ([return 1/self.batch_size *]) is not a complete
    statement, so CPython rejects the module when it compiles it.  The
    embedding takes every other function body as it is written and gives the
    incomplete [return] the outcome [SyntaxError]. *)

From Stdlib Require Import Reals Lra Lia ZArith List String.
From stdpp Require Import base option gmap strings.
Import ListNotations.

Set Warnings "-register-all".
Open Scope R_scope.

(** ** Exceptions and outcomes *)

(** The exceptions the module can raise.  numpy's [ValueError] messages
    carry the operand sizes; the model keeps their leading words only. *)
Inductive exn :=
| AttributeError (obj attr : string)
| NameError (name : string)
| TypeError
| ValueError (msg : string)
| ZeroDivisionError
| OverflowError
| MemoryError
| IndexError
| SyntaxError.

Inductive result (A : Type) :=
| Ok (a : A)
| Raise (e : exn).
Arguments Ok {A} a.
Arguments Raise {A} e.

#[global] Instance result_ret : MRet result := fun A a => Ok a.
#[global] Instance result_bind : MBind result := fun A B f m =>
  match m with
  | Ok a => f a
  | Raise e => Raise e
  end.
#[global] Instance result_fmap : FMap result := fun A B f m =>
  match m with
  | Ok a => Ok (f a)
  | Raise e => Raise e
  end.

(** ** numpy arrays *)

Definition vec := list R.

(** A two-dimensional array of shape [(length rows, ncols)].  In a numpy
    array every row has [ncols] entries; no result below needs it. *)
Record matrix := Matrix { ncols : nat; rows : list vec }.

Definition nrows (X : matrix) : nat := length (rows X).

Fixpoint dot (u v : vec) : R :=
  match u, v with
  | a :: u', b :: v' => a * b + dot u' v'
  | _, _ => 0
  end.

Fixpoint zip_with_R (f : R -> R -> R) (u v : vec) : vec :=
  match u, v with
  | a :: u', b :: v' => f a b :: zip_with_R f u' v'
  | _, _ => []
  end.

(** Elementwise operation on two one-dimensional arrays with numpy's
    broadcasting: equal lengths, or one operand of length one. *)
Definition broadcast (f : R -> R -> R) (u v : vec) : result vec :=
  if (length u =? length v)%nat then Ok (zip_with_R f u v)
  else if (length u =? 1)%nat then Ok (map (f (hd 0 u)) v)
  else if (length v =? 1)%nat then Ok (map (fun a => f a (hd 0 v)) u)
  else Raise (ValueError "operands could not be broadcast together").

Module np.

Definition mismatch : exn :=
  ValueError "matmul: Input operand 1 has a mismatch in its core dimension 0".

(** [np.matmul] of a two-dimensional and a one-dimensional array. *)
Definition matmul (X : matrix) (v : vec) : result vec :=
  if (ncols X =? length v)%nat
  then Ok (map (fun r => dot r v) (rows X))
  else Raise mismatch.

(** [np.matmul] of two one-dimensional arrays: the inner product. *)
Definition matmul1 (u v : vec) : result R :=
  if (length u =? length v)%nat then Ok (dot u v) else Raise mismatch.

Definition column (j : nat) (X : matrix) : vec :=
  map (fun r => nth j r 0) (rows X).

Definition transpose (X : matrix) : matrix :=
  {| ncols := nrows X;
     rows := map (fun j => column j X) (seq 0 (ncols X)) |}.

(** [np.transpose] of a one-dimensional array returns it unchanged. *)
Definition transpose1 (v : vec) : vec := v.

(** [np.zeros_like] of an integer scalar: a zero-dimensional array
    holding the integer 0. *)
Definition zeros_like (n : nat) : Z := 0%Z.

(** Attribute lookup on the numpy module for the names the program
    applies to a matrix and a vector.  numpy's matrix product is
    [matmul]; no release of numpy has an attribute [matmult]. *)
Definition getattr (name : string) : result (matrix -> vec -> result vec) :=
  if decide (name = "matmul"%string) then Ok matmul
  else Raise (AttributeError "numpy" name).

End np.

(** ** Python floats and integers *)

(** Python's [a / b] on two numbers of moderate size. *)
Definition truediv (a b : R) : result R :=
  if Req_dec_T b 0 then Raise ZeroDivisionError else Ok (a / b).

(** A binary64: a finite value, an infinity or a NaN.  The sign of a zero
    is not kept: no operation below tells the two zeros apart in the kind
    of its result. *)
Inductive float :=
| Fin (x : R)
| Inf (negative : bool)
| NaN.

(** Rounding to nearest sends a real of magnitude [2^1024 - 2^970] or more
    to an infinity and one of magnitude [2^-1075] or less to zero. *)
Definition float_overflow : R := IZR (2 ^ 1024 - 2 ^ 970).
Definition float_underflow : R := / IZR (2 ^ 1075).

(** [sys.float_info.min], the smallest normal float.  From here up to half
    of [float_overflow] a rounding moves a value by a relative [2^-53] at
    most, so that no sum or quotient of line 24 taken there leaves the
    finite non-zero floats. *)
Definition float_min : R := / IZR (2 ^ 1022).

Definition is_negative (v : R) : bool := if Rlt_dec v 0 then true else false.

Definition flush (v : R) : R :=
  if Rle_dec (Rabs v) float_underflow then 0 else v.

(** The float an exact result becomes. *)
Definition fl (v : R) : float :=
  if Rle_dec float_overflow (Rabs v) then Inf (is_negative v)
  else Fin (flush v).

(** Conversion of an int to a float, as [s0 + iteration] does for a float
    [s0]: "int too large to convert to float". *)
Definition float_of_int (t : Z) : result float :=
  if Rle_dec float_overflow (Rabs (IZR t)) then Raise OverflowError
  else Ok (Fin (IZR t)).

Definition float_add (x y : float) : float :=
  match x, y with
  | Fin a, Fin b => fl (a + b)
  | NaN, _ | _, NaN => NaN
  | Inf s, Inf s' => if Bool.eqb s s' then Inf s else NaN
  | Inf s, Fin _ | Fin _, Inf s => Inf s
  end.

Definition float_mul (x y : float) : float :=
  match x, y with
  | Fin a, Fin b => fl (a * b)
  | NaN, _ | _, NaN => NaN
  | Inf s, Inf s' => Inf (xorb s s')
  | Inf s, Fin b | Fin b, Inf s =>
      if Req_dec_T b 0 then NaN else Inf (xorb s (is_negative b))
  end.

(** [x / y] on floats: a zero divisor raises, nothing else does. *)
Definition float_div (x y : float) : result float :=
  match y with
  | Fin b =>
      if Req_dec_T b 0 then Raise ZeroDivisionError
      else match x with
           | Fin a => Ok (fl (a / b))
           | Inf s => Ok (Inf (xorb s (is_negative b)))
           | NaN => Ok NaN
           end
  | Inf _ => match x with Fin _ => Ok (Fin 0) | _ => Ok NaN end
  | NaN => Ok NaN
  end.

(** A Python number that is an int or a float. *)
Inductive pynum :=
| PyInt (z : Z)
| PyFloat (f : float).

Definition to_float (a : pynum) : result float :=
  match a with
  | PyInt z => float_of_int z
  | PyFloat f => Ok f
  end.

(** [a + t] for an int [t]: exact on an int, a float addition after the
    conversion of [t] on a float. *)
Definition add_int (a : pynum) (t : Z) : result pynum :=
  match a with
  | PyInt z => Ok (PyInt (z + t))
  | PyFloat f => tf ← float_of_int t; Ok (PyFloat (float_add f tf))
  end.

(** [a / b]: two ints are divided exactly and the quotient rounded
    ("integer division result too large for a float" beyond the range);
    otherwise both become floats. *)
Definition py_truediv (a b : pynum) : result float :=
  match a, b with
  | PyInt x, PyInt y =>
      if (y =? 0)%Z then Raise ZeroDivisionError
      else if Rle_dec float_overflow (Rabs (IZR x / IZR y))
           then Raise OverflowError
           else Ok (fl (IZR x / IZR y))
  | _, _ => x ← to_float a; y ← to_float b; float_div x y
  end.

(** The result of [**] and of the product: a float or, after a negative
    base was raised to a fractional power, a complex. *)
Inductive number :=
| Float (f : float)
| Complex (re im : float).

Abbreviation Real x := (Float (Fin x)).

Definition is_integer (y : R) : bool :=
  if Req_dec_T (IZR (Int_part y)) y then true else false.

Definition is_odd_integer (y : R) : bool :=
  is_integer y && Z.odd (Int_part y).

(** The platform [pow] on a positive finite base [x], negated if asked:
    an overflow raises [OverflowError], an underflow gives zero. *)
Definition checked_pow (negate : bool) (x y : R) : result number :=
  if Rle_dec float_overflow (Rpower x y) then Raise OverflowError
  else Ok (Float (fl (if negate then - Rpower x y else Rpower x y))).

(** The complex power of a negative finite base [x] and a fractional [y]:
    modulus [|x| ** y], argument [pi * y]; an infinite modulus raises
    "complex exponentiation". *)
Definition complex_pow (x y : R) : result number :=
  if Rle_dec float_overflow (Rpower (- x) y) then Raise OverflowError
  else Ok (Complex (fl (flush (Rpower (- x) y) * cos (PI * y)))
                   (fl (flush (Rpower (- x) y) * sin (PI * y)))).

(** Python's [x ** y] for a float [x] and a finite float [y], in the order
    of CPython's case analysis. *)
Definition float_pow (x : float) (y : R) : result number :=
  if Req_dec_T y 0 then Ok (Real 1)
  else
    match x with
    | NaN => Ok (Float NaN)
    | Inf s =>
        if Rlt_dec 0 y then Ok (Float (Inf (s && is_odd_integer y)))
        else Ok (Real 0)
    | Fin a =>
        if Req_dec_T a 0 then
          if Rlt_dec y 0 then Raise ZeroDivisionError else Ok (Real 0)
        else if Rlt_dec a 0 then
          if is_integer y then checked_pow (is_odd_integer y) (- a) y
          else complex_pow a y
        else checked_pow false a y
    end.

(** [c * z] for a finite float [c]; the components of a complex [z] are
    finite where this is used. *)
Definition scale_number (c : R) (z : number) : number :=
  match z with
  | Float f => Float (float_mul (Fin c) f)
  | Complex re im => Complex (float_mul (Fin c) re) (float_mul (Fin c) im)
  end.

(** ** LearningRate *)

(** [lambda_] and [p] are finite floats, as annotated.  [s0] is annotated
    a float too, but its default is the int 1, and an int takes its own
    path through line 24. *)
Record LearningRate := mkLearningRate
  { lambda_ : R; s0 : pynum; p : R; iteration : Z }.

(** [LearningRate.__call__]: the counter is advanced first, then the rate
    is computed from the advanced counter.  An exception raised by the
    arithmetic leaves the counter advanced. *)
Definition LearningRate__call__ (self : LearningRate)
  : result number * LearningRate :=
  let self' := {| lambda_ := lambda_ self; s0 := s0 self; p := p self;
                  iteration := (iteration self + 1)%Z |} in
  (d ← add_int (s0 self') (iteration self');
   q ← py_truediv (s0 self') d;
   pw ← float_pow q (p self');
   mret (scale_number (lambda_ self') pw),
   self').

(** The outcomes of [k] successive calls, oldest first, and the schedule
    after them. *)
Fixpoint calls (k : nat) (self : LearningRate)
  : list (result number) * LearningRate :=
  match k with
  | O => ([], self)
  | S k' =>
      let '(r, self') := LearningRate__call__ self in
      let '(rs, self'') := calls k' self' in
      (r :: rs, self'')
  end.

(** ** Python values and operators *)

Inductive LossFunction := MSE | MAE | LogCosh | Huber.

(** The values that flow through [step]: a method's result is [None], a
    number, a one-dimensional array, or a [LearningRate] object. *)
Inductive value :=
| VNone
| VFloat (x : R)
| VArr (v : vec)
| VLearningRate (o : LearningRate).

(** Unary minus.  [LearningRate] is a plain dataclass and defines no
    [__neg__]. *)
Definition py_neg (a : value) : result value :=
  match a with
  | VFloat x => Ok (VFloat (- x))
  | VArr v => Ok (VArr (map Ropp v))
  | VNone | VLearningRate _ => Raise TypeError
  end.

(** A binary arithmetic operator.  An array combined with an object that
    is not a number goes through numpy's object loop, which fails on the
    first element and so succeeds only on an empty array. *)
Definition py_binop (f : R -> R -> R) (a b : value) : result value :=
  match a, b with
  | VFloat x, VFloat y => Ok (VFloat (f x y))
  | VFloat x, VArr v => Ok (VArr (map (f x) v))
  | VArr u, VFloat y => Ok (VArr (map (fun a => f a y) u))
  | VArr u, VArr v => VArr <$> broadcast f u v
  | VArr [], _ | _, VArr [] => Ok (VArr [])
  | _, _ => Raise TypeError
  end.

(** ** Instances, the random generator and the method monad *)

Inductive class :=
| BaseDescent_cls
| VanillaGradientDescent_cls
| StochasticDescent_cls
| BaseDescentReg_cls
| VanillaGradientDescentReg_cls
| StochasticDescentReg_cls.

(** The attributes of a descent object.  [batch_size] is set by
    [StochasticDescent.__init__] and [mu] by [BaseDescentReg.__init__];
    the other classes never read them. *)
Record descent := mkDescent
  { cls : class;
    w : vec;
    lr : LearningRate;
    loss_function : LossFunction;
    batch_size : Z;
    mu : R }.

(** The state of the [random] module: the numbers it will produce and how
    many were consumed. *)
Record random_state := mkRandom { stream : nat -> nat; cursor : nat }.

Record world := mkWorld { inst : descent; rng : random_state }.

Definition M (A : Type) : Type := world -> result A * world.

#[global] Instance M_ret : MRet M := fun A a st => (Ok a, st).
#[global] Instance M_bind : MBind M := fun A B f m st =>
  match m st with
  | (Ok a, st') => f a st'
  | (Raise e, st') => (Raise e, st')
  end.

Definition lift {A} (r : result A) : M A := fun st => (r, st).
Definition raise {A} (e : exn) : M A := fun st => (Raise e, st).
Definition self : M descent := fun st => (Ok (inst st), st).

(** The world after one number was taken from the generator, and after
    [k] of them. *)
Definition consume (st : world) : world :=
  {| inst := inst st;
     rng := {| stream := stream (rng st); cursor := S (cursor (rng st)) |} |}.

Fixpoint advance (k : nat) (st : world) : world :=
  match k with
  | O => st
  | S k' => advance k' (consume st)
  end.

(** [range(n)]. *)
Definition range (n : Z) : list Z := map Z.of_nat (seq 0 (Z.to_nat n)).

Module random.

(** One draw of [population[floor(random() * n)]]: [random()] is taken
    from the stream, the index it selects is the drawn number reduced
    below [n].  An empty population is indexed at 0 and raises. *)
Definition draw (population : list Z) : M Z := fun st =>
  let r := rng st in
  match population with
  | [] => (Raise IndexError, consume st)
  | x :: _ =>
      (Ok (nth (stream r (cursor r) mod length population) population x),
       consume st)
  end.

(** [k] draws in a row. *)
Fixpoint draws (population : list Z) (k : nat) : M (list Z) :=
  match k with
  | O => mret []
  | S k' =>
      x ← draw population;
      xs ← draws population k';
      mret (x :: xs)
  end.

(** The largest length [len] can return ([sys.maxsize] of a 64-bit
    build). *)
Definition maxsize : Z := 2 ^ 63 - 1.

(** [random.choices(population, k=k)]: [len(population)] is taken first,
    and raises [OverflowError] for a [range] longer than [maxsize]; then
    come the draws. *)
Definition choices (population : list Z) (k : nat) : M (list Z) :=
  if (maxsize <? Z.of_nat (length population))%Z then raise OverflowError
  else draws population k.

End random.

(** A [for] loop that threads an accumulator. *)
Fixpoint for_each {A} (l : list A) (body : A -> value -> M value) (acc : value)
  : M value :=
  match l with
  | [] => mret acc
  | i :: l' => acc' ← body i acc; for_each l' body acc'
  end.

(** ** The descent classes *)

Module BaseDescent.

Definition update_weights (gradient : value) : M value := mret VNone.

Definition calc_gradient (X : matrix) (y : vec) : M value := mret VNone.

Definition predict (X : matrix) : M vec :=
  s ← self; lift (np.matmul X (w s)).

Definition calc_loss (X : matrix) (y : vec) : M R :=
  yhat ← predict X;
  diff ← lift (broadcast Rminus y yhat);
  c ← lift (truediv 1 (INR (length y)));
  d ← lift (np.matmul1 (np.transpose1 diff) diff);
  mret (c * d).

End BaseDescent.

Module VanillaGradientDescent.

(** [-self.lr * gradient] parses as [(-self.lr) * gradient]; [self.lr]
    is the schedule object itself, it is not called. *)
Definition update_weights (gradient : value) : M value :=
  s ← self;
  n ← lift (py_neg (VLearningRate (lr s)));
  lift (py_binop Rmult n gradient).

(** The expression [2 * f(np.transpose(X), y - f(X, w))] once the
    attribute has been resolved to [f]. *)
Definition gradient_expr (f : matrix -> vec -> result vec)
    (X : matrix) (y w : vec) : result value :=
  let Xt := np.transpose X in
  yhat ← f X w;
  diff ← broadcast Rminus y yhat;
  g ← f Xt diff;
  py_binop Rmult (VFloat 2) (VArr g).

Definition calc_gradient (X : matrix) (y : vec) : M value :=
  matmult ← lift (np.getattr "matmult");
  s ← self;
  lift (gradient_expr matmult X y (w s)).

End VanillaGradientDescent.

Module StochasticDescent.

(** The loop body calls [VanillaGradientDescent.calc_gradient(X, y)] on
    the class, so [X] is bound to [self], [y] to [X], and the parameter
    [y] is left without an argument: the call raises before the function
    body runs. *)
Definition calc_gradient (X : matrix) (y : vec) : M value :=
  s ← self;
  rl ← random.choices (range (batch_size s - 1)) 4;
  grad_sum ← for_each (range (batch_size s))
               (fun i grad_sum =>
                  g ← raise TypeError;
                  lift (py_binop Rplus grad_sum g))
               (VFloat 0);
  raise SyntaxError.

End StochasticDescent.

Module BaseDescentReg.

(** [super_calc_gradient] is the method [super()] resolves to for the
    class of the instance. *)
Definition calc_gradient (super_calc_gradient : matrix -> vec -> M value)
    (X : matrix) (y : vec) : M value :=
  let l2_gradient := np.zeros_like (ncols X) in
  g ← super_calc_gradient X y;
  s ← self;
  lift (py_binop Rplus g (VFloat (IZR l2_gradient * mu s))).

End BaseDescentReg.

(** The method resolution order of each class. *)
Definition mro (c : class) : list class :=
  match c with
  | BaseDescent_cls => [BaseDescent_cls]
  | VanillaGradientDescent_cls => [VanillaGradientDescent_cls; BaseDescent_cls]
  | StochasticDescent_cls =>
      [StochasticDescent_cls; VanillaGradientDescent_cls; BaseDescent_cls]
  | BaseDescentReg_cls => [BaseDescentReg_cls; BaseDescent_cls]
  | VanillaGradientDescentReg_cls =>
      [VanillaGradientDescentReg_cls; BaseDescentReg_cls;
       VanillaGradientDescent_cls; BaseDescent_cls]
  | StochasticDescentReg_cls =>
      [StochasticDescentReg_cls; BaseDescentReg_cls; StochasticDescent_cls;
       VanillaGradientDescent_cls; BaseDescent_cls]
  end.

(** Lookup of [calc_gradient] along a resolution order; [super()] in
    [BaseDescentReg] continues with the rest of the order. *)
Fixpoint resolve_calc_gradient (order : list class) (X : matrix) (y : vec)
  : M value :=
  match order with
  | [] => raise (AttributeError "super" "calc_gradient")
  | BaseDescent_cls :: _ => BaseDescent.calc_gradient X y
  | VanillaGradientDescent_cls :: _ => VanillaGradientDescent.calc_gradient X y
  | StochasticDescent_cls :: _ => StochasticDescent.calc_gradient X y
  | BaseDescentReg_cls :: rest =>
      BaseDescentReg.calc_gradient (resolve_calc_gradient rest) X y
  | _ :: rest => resolve_calc_gradient rest X y
  end.

Fixpoint resolve_update_weights (order : list class) (gradient : value)
  : M value :=
  match order with
  | [] => raise (AttributeError "super" "update_weights")
  | BaseDescent_cls :: _ => BaseDescent.update_weights gradient
  | VanillaGradientDescent_cls :: _ =>
      VanillaGradientDescent.update_weights gradient
  | _ :: rest => resolve_update_weights rest gradient
  end.

(** [self.calc_gradient(X, y)] and [self.update_weights(gradient)]. *)
Definition calc_gradient (X : matrix) (y : vec) : M value :=
  s ← self; resolve_calc_gradient (mro (cls s)) X y.

Definition update_weights (gradient : value) : M value :=
  s ← self; resolve_update_weights (mro (cls s)) gradient.

(** [BaseDescent.step], inherited by every class. *)
Definition step (X : matrix) (y : vec) : M value :=
  gradient ← calc_gradient X y;
  update_weights gradient.

(** ** The factory *)

(** The values a configuration mapping holds. *)
Inductive pyval :=
| PNone
| PBool (b : bool)
| PInt (z : Z)
| PFloat (x : R)
| PStr (s : string)
| PDict (d : gmap string pyval).

(** Python's truth value. *)
Definition truthy (v : pyval) : bool :=
  match v with
  | PNone => false
  | PBool b => b
  | PInt z => negb (z =? 0)%Z
  | PFloat x => if Req_dec_T x 0 then false else true
  | PStr s => negb (String.eqb s "")
  | PDict d => negb (size d =? 0)%nat
  end.

(** The classes bound to a name at module level, in definition order.
    The module defines and imports no other class. *)
Definition module_classes : list (string * class) :=
  [ ("BaseDescent", BaseDescent_cls);
    ("VanillaGradientDescent", VanillaGradientDescent_cls);
    ("StochasticDescent", StochasticDescent_cls);
    ("BaseDescentReg", BaseDescentReg_cls);
    ("VanillaGradientDescentReg", VanillaGradientDescentReg_cls);
    ("StochasticDescentReg", StochasticDescentReg_cls) ]%string.

Fixpoint assoc {A} (k : string) (l : list (string * A)) : option A :=
  match l with
  | [] => None
  | (k', a) :: l' => if String.eqb k k' then Some a else assoc k l'
  end.

(** Evaluation of a global name that is expected to hold a class. *)
Definition load_global (name : string) : result class :=
  match assoc name module_classes with
  | Some c => Ok c
  | None => Raise (NameError name)
  end.

(** [key in d] for a dict with string keys: a dict is not hashable, any
    other value is and equals a key only if it is that string. *)
Definition dict_lookup {A} (key : pyval) (d : list (string * A))
  : result (option A) :=
  match key with
  | PStr s => Ok (assoc s d)
  | PDict _ => Raise TypeError
  | _ => Ok None
  end.

(** The text of [d.keys()] inside an f-string. *)
Definition dict_keys_repr {A} (d : list (string * A)) : string :=
  "dict_keys([" +:+
  String.concat ", " (map (fun kv => "'" +:+ fst kv +:+ "'") d) +:+ "])".

Section Factory.

(** Calling a class with keyword arguments: [__init__] along the
    resolution order of the class. *)
Variable new : class -> gmap string pyval -> result descent.

Definition get_descent (descent_config : gmap string pyval)
  : result descent :=
  let descent_name :=
    default (PStr "full") (descent_config !! "descent_name"%string) in
  let regularized :=
    default (PBool false) (descent_config !! "regularized"%string) in
  let pick (plain reg : string) : result class :=
    if negb (truthy regularized) then load_global plain
    else load_global reg in
  full ← pick "VanillaGradientDescent" "VanillaGradientDescentReg";
  stochastic ← pick "StochasticDescent" "StochasticDescentReg";
  momentum ← pick "MomentumDescent" "MomentumDescentReg";
  adam ← pick "Adam" "AdamReg";
  let descent_mapping :=
    [ ("full", full); ("stochastic", stochastic);
      ("momentum", momentum); ("adam", adam) ]%string in
  found ← dict_lookup descent_name descent_mapping;
  match found with
  | None =>
      Raise (ValueError ("Incorrect descent name, use one of these: " +:+
                         dict_keys_repr descent_mapping))
  | Some descent_class =>
      match default (PDict ∅) (descent_config !! "kwargs"%string) with
      | PDict kwargs => new descent_class kwargs
      | _ => Raise TypeError
      end
  end.

End Factory.

(** ** Construction *)

(** The state numpy works in: the samples of [[0, 1)] its global generator
    will produce, how many were taken, and the longest array of floats the
    process can still allocate. *)
Record np_random_state := mkNpRandom
  { samples : nat -> R; taken : nat; capacity : Z }.

(** The largest array index of a 64-bit build, and the longest array of
    8-byte floats that it allows. *)
Definition max_intp : Z := 2 ^ 63 - 1.
Definition max_floats : Z := max_intp / 8.

(** [np.random.rand(d)] for an integer [d]: the array is allocated, with
    numpy's checks on its size, before any sample is taken. *)
Definition np_random_rand (d : Z) (g : np_random_state)
  : result vec * np_random_state :=
  if (d <? 0)%Z
  then (Raise (ValueError "negative dimensions are not allowed"), g)
  else if (max_intp <? d)%Z
  then (Raise (ValueError "Maximum allowed dimension exceeded"), g)
  else if (max_floats <? d)%Z
  then (Raise (ValueError "array is too big"), g)
  else if (capacity g <? d)%Z
  then (Raise MemoryError, g)
  else (Ok (map (fun i => samples g (taken g + i)%nat) (seq 0 (Z.to_nat d))),
        {| samples := samples g; taken := (taken g + Z.to_nat d)%nat;
           capacity := capacity g |}).

(** The dataclass constructor [LearningRate(...)] with its defaults. *)
Definition LearningRate__init__
    (lam : option R) (s : option pynum) (pw : option R) (it : option Z)
  : LearningRate :=
  {| lambda_ := default (1 / 1000) lam;
     s0 := default (PyInt 1) s;
     p := default (1 / 2) pw;
     iteration := default 0%Z it |}.

(** The keyword arguments of a call of a class, as the factory makes it
    from its [kwargs] mapping: the five
    names the constructors know, each present or not, and the names of any
    other keyword. *)
Record kwargs := mkKwargs
  { kw_dimension : option Z;
    kw_lambda_ : option R;
    kw_loss_function : option LossFunction;
    kw_batch_size : option Z;
    kw_mu : option R;
    kw_other : list string }.

(** The attributes a constructor has set on the new object; [batch_size]
    and [mu] exist only if a constructor assigned them. *)
Record attributes := mkAttributes
  { a_w : vec;
    a_lr : LearningRate;
    a_loss_function : LossFunction;
    a_batch_size : option Z;
    a_mu : option R }.

Definition init := kwargs -> np_random_state -> result attributes * np_random_state.

(** [BaseDescent.__init__(self, dimension, lambda_=1e-3,
    loss_function=LossFunction.MSE)]: a keyword it does not name, or no
    [dimension], is a [TypeError] of the call itself. *)
Definition BaseDescent__init__ : init := fun kw g =>
  match kw_batch_size kw, kw_mu kw, kw_other kw, kw_dimension kw with
  | None, None, [], Some dimension =>
      let lam := default (1 / 1000) (kw_lambda_ kw) in
      let loss := default MSE (kw_loss_function kw) in
      match np_random_rand dimension g with
      | (Ok weights, g') =>
          (Ok {| a_w := weights;
                 a_lr := LearningRate__init__ (Some lam) None None None;
                 a_loss_function := loss;
                 a_batch_size := None;
                 a_mu := None |}, g')
      | (Raise e, g') => (Raise e, g')
      end
  | _, _, _, _ => (Raise TypeError, g)
  end.

(** [StochasticDescent.__init__(self, dimension, lambda_=1e-3,
    batch_size=50, loss_function=LossFunction.MSE)]; [super_init] is the
    constructor [super()] resolves to, called with the three positional
    arguments. *)
Definition StochasticDescent__init__ (super_init : init) : init := fun kw g =>
  match kw_mu kw, kw_other kw, kw_dimension kw with
  | None, [], Some dimension =>
      let lam := default (1 / 1000) (kw_lambda_ kw) in
      let bs := default 50%Z (kw_batch_size kw) in
      let loss := default MSE (kw_loss_function kw) in
      match super_init {| kw_dimension := Some dimension;
                          kw_lambda_ := Some lam;
                          kw_loss_function := Some loss;
                          kw_batch_size := None;
                          kw_mu := None;
                          kw_other := [] |} g with
      | (Ok a, g') =>
          (Ok {| a_w := a_w a; a_lr := a_lr a;
                 a_loss_function := a_loss_function a;
                 a_batch_size := Some bs;
                 a_mu := a_mu a |}, g')
      | (Raise e, g') => (Raise e, g')
      end
  | _, _, _ => (Raise TypeError, g)
  end.

(** [BaseDescentReg.__init__(self, *args, mu=0, **kwargs)]: [mu] is taken
    out, every other keyword goes on to [super().__init__]. *)
Definition BaseDescentReg__init__ (super_init : init) : init := fun kw g =>
  let m := default 0 (kw_mu kw) in
  match super_init {| kw_dimension := kw_dimension kw;
                      kw_lambda_ := kw_lambda_ kw;
                      kw_loss_function := kw_loss_function kw;
                      kw_batch_size := kw_batch_size kw;
                      kw_mu := None;
                      kw_other := kw_other kw |} g with
  | (Ok a, g') =>
      (Ok {| a_w := a_w a; a_lr := a_lr a;
             a_loss_function := a_loss_function a;
             a_batch_size := a_batch_size a;
             a_mu := Some m |}, g')
  | (Raise e, g') => (Raise e, g')
  end.

(** Lookup of [__init__] along a resolution order.  The full-batch class
    and the two combined classes define none.  Every order of [mro] ends
    in [BaseDescent], whose constructor does not call [super()]; past the
    end of an order stands [object.__init__], which sets no attribute and
    is given none here. *)
Fixpoint resolve__init__ (order : list class) : init :=
  match order with
  | [] => fun _ g => (Raise TypeError, g)
  | BaseDescent_cls :: _ => BaseDescent__init__
  | StochasticDescent_cls :: rest =>
      StochasticDescent__init__ (resolve__init__ rest)
  | BaseDescentReg_cls :: rest => BaseDescentReg__init__ (resolve__init__ rest)
  | _ :: rest => resolve__init__ rest
  end.

(** The call of class [c] with keyword arguments. *)
Definition construct (c : class) : init := resolve__init__ (mro c).

(** An instance as the methods see it carries the attributes a constructor
    has set. *)
Definition describes (c : class) (a : attributes) (d : descent) : Prop :=
  cls d = c /\ w d = a_w a /\ lr d = a_lr a /\
  loss_function d = a_loss_function a /\
  (forall b, a_batch_size a = Some b -> batch_size d = b) /\
  (forall m, a_mu a = Some m -> mu d = m).

(** The classes with [StochasticDescent], and those with
    [BaseDescentReg], in their resolution order. *)
Definition is_stochastic (c : class) : bool :=
  match c with
  | StochasticDescent_cls | StochasticDescentReg_cls => true
  | _ => false
  end.

Definition is_regularized (c : class) : bool :=
  match c with
  | BaseDescentReg_cls | VanillaGradientDescentReg_cls
  | StochasticDescentReg_cls => true
  | _ => false
  end.

(** The keywords are all among those the constructors of [c] name. *)
Definition accepts (c : class) (kw : kwargs) : bool :=
  match kw_other kw with [] => true | _ => false end
  && (is_stochastic c || negb (bool_decide (is_Some (kw_batch_size kw))))
  && (is_regularized c || negb (bool_decide (is_Some (kw_mu kw)))).

(** The weights [np.random.rand(d)] takes from generator [g]. *)
Definition fresh_weights (d : Z) (g : np_random_state) : vec :=
  map (fun i => samples g (taken g + i)%nat) (seq 0 (Z.to_nat d)).

(** A generator that always produces one half, and keyword arguments that
    give a dimension and a base rate only. *)
Definition g_half : np_random_state :=
  {| samples := fun _ => 1 / 2; taken := 0; capacity := 1000 |}.

Definition kw_dim (d : Z) : kwargs :=
  {| kw_dimension := Some d; kw_lambda_ := Some (1 / 10);
     kw_loss_function := None; kw_batch_size := None; kw_mu := None;
     kw_other := [] |}.

(** * Properties *)

(** ** Worlds used as concrete inputs *)

Definition lr0 : LearningRate :=
  {| lambda_ := 1 / 10; s0 := PyInt 1; p := 1 / 2; iteration := 0 |}.

Definition rng0 : random_state := {| stream := fun i => i; cursor := 0 |}.

Definition world0 (c : class) (weights : vec) (bs : Z) (m : R) : world :=
  {| inst := {| cls := c; w := weights; lr := lr0; loss_function := MSE;
                batch_size := bs; mu := m |};
     rng := rng0 |}.

(** The same object as an instance of another class: every attribute but
    the class is kept. *)
Definition retag (c : class) (st : world) : world :=
  {| inst := {| cls := c; w := w (inst st); lr := lr (inst st);
                loss_function := loss_function (inst st);
                batch_size := batch_size (inst st); mu := mu (inst st) |};
     rng := rng st |}.

(** An outcome that is a number, an array or an exception: what a
    gradient rule that does return hands to [BaseDescentReg]. *)
Definition numeric_or_raise (r : result value) : bool :=
  match r with
  | Ok VNone | Ok (VLearningRate _) => false
  | _ => true
  end.

(** The schedule's formula as the specification writes it:
    [lambda_ * (s0 / (s0 + t)) ^ p] at iteration count [t]. *)
Definition rate_formula (lam s pw : R) (t : Z) : R :=
  lam * Rpower (s / (s + IZR t)) pw.

(** A schedule whose base rate is zero. *)
Definition lr_zero : LearningRate :=
  {| lambda_ := 0; s0 := PyInt 1; p := 1; iteration := 0 |}.

(** The specification's [DimensionMismatch]: the module defines no such
    class, a shape error is the [ValueError] numpy raises. *)
Definition DimensionMismatch {A} (r : result A) : bool :=
  match r with
  | Raise (ValueError _) => true
  | _ => false
  end.

(** One sample with three features. *)
Definition X13 : matrix := {| ncols := 3; rows := [[1; 2; 3]] |}.

(** The data of the end-to-end scenario: three samples, two features. *)
Definition X3 : matrix := {| ncols := 2; rows := [[1; 0]; [0; 1]; [1; 1]] |}.
Definition y3 : vec := [1; 1; 2].

(** The real a finite Python number stands for. *)
Definition num_value (a : pynum) : R :=
  match a with
  | PyInt z => IZR z
  | PyFloat (Fin x) => x
  | PyFloat _ => 0
  end.

(** An int, or a float that is finite. *)
Definition finite_num (a : pynum) : Prop :=
  match a with
  | PyInt _ | PyFloat (Fin _) => True
  | PyFloat _ => False
  end.

Definition is_float (a : pynum) : bool :=
  match a with
  | PyFloat _ => true
  | PyInt _ => false
  end.

(** A real inside the float range: neither flushed to zero nor sent to an
    infinity. *)
Definition in_float_range (x : R) : Prop :=
  Rabs x < float_overflow /\ (x = 0 \/ float_underflow < Rabs x).

(** ** The abstract methods *)

Lemma calc_gradient_dispatch (X : matrix) (y : vec) (st : world) :
  calc_gradient X y st = resolve_calc_gradient (mro (cls (inst st))) X y st.
Proof. reflexivity. Qed.

Lemma update_weights_dispatch (g : value) (st : world) :
  update_weights g st = resolve_update_weights (mro (cls (inst st))) g st.
Proof. reflexivity. Qed.

Lemma step_unfold (X : matrix) (y : vec) (st : world) :
  step X y st =
  match calc_gradient X y st with
  | (Ok g, st') => update_weights g st'
  | (Raise e, st') => (Raise e, st')
  end.
Proof. reflexivity. Qed.

Lemma BaseDescent_step_None (X : matrix) (y : vec) (st : world) :
  cls (inst st) = BaseDescent_cls -> step X y st = (Ok VNone, st).
Proof.
  intros Hc. rewrite step_unfold, calc_gradient_dispatch, Hc. cbn.
  rewrite update_weights_dispatch, Hc. reflexivity.
Qed.

(** C10: on an instance of [BaseDescent] itself, [calc_gradient],
    [update_weights] and [step] return [None] for every input, raise
    nothing, and leave the instance and the generator as they were. *)
Theorem C10_abstract_methods_return_None
    (X : matrix) (y : vec) (g : value) (st : world) :
  cls (inst st) = BaseDescent_cls ->
  BaseDescent.calc_gradient X y st = (Ok VNone, st) /\
  BaseDescent.update_weights g st = (Ok VNone, st) /\
  calc_gradient X y st = (Ok VNone, st) /\
  update_weights g st = (Ok VNone, st) /\
  step X y st = (Ok VNone, st).
Proof.
  intros Hc. split; [reflexivity|]. split; [reflexivity|].
  split; [|split].
  - rewrite calc_gradient_dispatch, Hc. reflexivity.
  - rewrite update_weights_dispatch, Hc. reflexivity.
  - apply BaseDescent_step_None, Hc.
Qed.

Lemma C10_witness :
  step X3 y3 (world0 BaseDescent_cls [0; 0] 50 0)
  = (Ok VNone, world0 BaseDescent_cls [0; 0] 50 0).
Proof.
  apply (C10_abstract_methods_return_None X3 y3 VNone
           (world0 BaseDescent_cls [0; 0] 50 0)).
  reflexivity.
Defined.

(** ** The full-batch rule *)

Lemma Vanilla_calc_gradient_raises (X : matrix) (y : vec) (st : world) :
  VanillaGradientDescent.calc_gradient X y st
  = (Raise (AttributeError "numpy" "matmult"), st).
Proof. reflexivity. Qed.

Lemma Vanilla_update_weights_raises (g : value) (st : world) :
  VanillaGradientDescent.update_weights g st = (Raise TypeError, st).
Proof. reflexivity. Qed.

(** C1: [VanillaGradientDescent.calc_gradient] returns no gradient: the
    lookup of [np.matmult] raises [AttributeError] for every input.  With
    the name resolved to [np.matmul], the expression of line 105 gives
    [6; 6] on the scenario data at zero weights, where
    [2 * Xt (X w - y)] is [-6; -6]: the residual is target minus
    prediction. *)
Theorem C1_vanilla_calc_gradient_raises (X : matrix) (y : vec) (st : world) :
  VanillaGradientDescent.calc_gradient X y st
  = (Raise (AttributeError "numpy" "matmult"), st) /\
  VanillaGradientDescent.gradient_expr np.matmul X3 y3 [0; 0]
  = Ok (VArr [6; 6]).
Proof.
  split; [reflexivity|].
  cbn. repeat f_equal; lra.
Qed.

(** C2: [VanillaGradientDescent.update_weights] raises [TypeError] for
    every gradient, at the unary minus applied to the schedule object; the
    schedule is not advanced and the weights are not changed.  [step] on a
    full-batch instance stops earlier, in [calc_gradient]. *)
Theorem C2_vanilla_update_weights_raises (g : value) (X : matrix) (y : vec)
    (d : descent) (r : random_state) :
  let st := {| inst := d; rng := r |} in
  VanillaGradientDescent.update_weights g st = (Raise TypeError, st) /\
  (cls d = VanillaGradientDescent_cls ->
   update_weights g st = (Raise TypeError, st) /\
   step X y st = (Raise (AttributeError "numpy" "matmult"), st)).
Proof.
  intros st. split; [reflexivity|]. intros Hc. split.
  - rewrite update_weights_dispatch. subst st. cbn [inst]. rewrite Hc.
    reflexivity.
  - rewrite step_unfold, calc_gradient_dispatch. subst st. cbn [inst].
    rewrite Hc. reflexivity.
Qed.

Lemma C2_witness :
  let st := world0 VanillaGradientDescent_cls [0; 0] 50 0 in
  update_weights (VArr [1; 1]) st = (Raise TypeError, st) /\
  step X3 y3 st = (Raise (AttributeError "numpy" "matmult"), st).
Proof.
  intros st.
  apply (C2_vanilla_update_weights_raises (VArr [1; 1]) X3 y3 (inst st) (rng st)).
  reflexivity.
Defined.

(** ** The stochastic rule *)

Lemma range_cons (n : Z) :
  (0 < n)%Z -> exists l, range n = 0%Z :: l.
Proof.
  intros Hn. unfold range.
  destruct (Z.to_nat n) as [|m] eqn:E; [lia|].
  cbn. eauto.
Qed.

Lemma range_nil (n : Z) : (n <= 0)%Z -> range n = [].
Proof.
  intros Hn. unfold range.
  replace (Z.to_nat n) with O by lia. reflexivity.
Qed.

Lemma draw_cons (x : Z) (l : list Z) (st : world) :
  random.draw (x :: l) st =
  (Ok (nth (stream (rng st) (cursor (rng st)) mod length (x :: l)) (x :: l) x),
   consume st).
Proof. reflexivity. Qed.

Lemma range_length (n : Z) : length (range n) = Z.to_nat n.
Proof. unfold range. rewrite length_map, length_seq. reflexivity. Qed.

Lemma draws_nonempty (x : Z) (l : list Z) (k : nat) (st : world) :
  exists xs, random.draws (x :: l) k st = (Ok xs, advance k st) /\
             length xs = k /\ Forall (fun i => In i (x :: l)) xs.
Proof.
  revert st. induction k as [|k IH]; intros st.
  - exists []. repeat split. constructor.
  - destruct (IH (consume st)) as (xs & Hxs & Hlen & Hin).
    exists (nth (stream (rng st) (cursor (rng st)) mod length (x :: l))
              (x :: l) x :: xs).
    split; [|split].
    + change (random.draws (x :: l) (S k) st)
        with (match random.draw (x :: l) st with
              | (Ok a, st') =>
                  match random.draws (x :: l) k st' with
                  | (Ok xs, st'') => (Ok (a :: xs), st'')
                  | (Raise e, st'') => (Raise e, st'')
                  end
              | (Raise e, st') => (Raise e, st')
              end).
      rewrite draw_cons, Hxs. reflexivity.
    + cbn [length]. now f_equal.
    + constructor; [|exact Hin].
      apply nth_In. apply Nat.mod_upper_bound. discriminate.
Qed.

Lemma choices_empty (k : nat) (st : world) :
  random.choices [] (S k) st = (Raise IndexError, consume st).
Proof. reflexivity. Qed.

Lemma choices_range (n : Z) (k : nat) (st : world) :
  random.choices (range n) k st =
  if (random.maxsize <? n)%Z then (Raise OverflowError, st)
  else random.draws (range n) k st.
Proof.
  unfold random.choices. rewrite range_length.
  destruct (Z.ltb_spec random.maxsize n) as [H|H].
  - replace (random.maxsize <? Z.of_nat (Z.to_nat n))%Z with true;
      [reflexivity|].
    symmetry. apply Z.ltb_lt. unfold random.maxsize in *. lia.
  - replace (random.maxsize <? Z.of_nat (Z.to_nat n))%Z with false;
      [reflexivity|].
    symmetry. apply Z.ltb_ge. unfold random.maxsize in *. lia.
Qed.

(** The outcome of the stochastic [calc_gradient] in closed form. *)
Lemma Stochastic_calc_gradient_outcome (X : matrix) (y : vec) (st : world) :
  StochasticDescent.calc_gradient X y st =
  if (batch_size (inst st) <=? 1)%Z
  then (Raise IndexError, consume st)
  else if (random.maxsize <? batch_size (inst st) - 1)%Z
  then (Raise OverflowError, st)
  else (Raise TypeError, advance 4 st).
Proof.
  unfold StochasticDescent.calc_gradient, mbind, M_bind, self.
  rewrite choices_range.
  destruct (Z.leb_spec (batch_size (inst st)) 1) as [Hle|Hgt].
  - replace (random.maxsize <? batch_size (inst st) - 1)%Z with false
      by (symmetry; apply Z.ltb_ge; unfold random.maxsize; lia).
    rewrite range_nil by lia. reflexivity.
  - destruct (random.maxsize <? batch_size (inst st) - 1)%Z; [reflexivity|].
    destruct (range_cons (batch_size (inst st) - 1)) as [l Hl]; [lia|].
    rewrite Hl.
    destruct (draws_nonempty 0%Z l 4 st) as (xs & Hxs & _).
    rewrite Hxs.
    destruct (range_cons (batch_size (inst st))) as [l' Hl']; [lia|].
    rewrite Hl'. reflexivity.
Qed.

(** C3: the stochastic [calc_gradient] returns no gradient for any input:
    with [batch_size <= 1] the population [range(batch_size - 1)] is empty
    and the draw raises [IndexError]; with a population longer than
    [sys.maxsize] its length raises [OverflowError] before any draw;
    otherwise four indices are drawn below [batch_size - 1], whatever the
    number of rows, none of them is used, and the first pass of the loop
    raises [TypeError].  On the scenario data with [batch_size = 3] the
    four indices are 0, 1, 0, 1. *)
Theorem C3_stochastic_calc_gradient_raises
    (X : matrix) (y : vec) (st : world) :
  fst (StochasticDescent.calc_gradient X y st) =
    Raise (if (batch_size (inst st) <=? 1)%Z then IndexError
           else if (random.maxsize <? batch_size (inst st) - 1)%Z
                then OverflowError else TypeError) /\
  fst (random.choices (range (3 - 1)) 4
         (world0 StochasticDescent_cls [0; 0] 3 0))
    = Ok [0; 1; 0; 1]%Z /\
  fst (StochasticDescent.calc_gradient X3 y3
         (world0 StochasticDescent_cls [0; 0] 3 0)) = Raise TypeError.
Proof.
  split; [|split].
  - rewrite Stochastic_calc_gradient_outcome.
    destruct (batch_size (inst st) <=? 1)%Z; [reflexivity|].
    destruct (random.maxsize <? batch_size (inst st) - 1)%Z; reflexivity.
  - reflexivity.
  - rewrite Stochastic_calc_gradient_outcome. reflexivity.
Qed.
(** ** The regularized classes *)

Lemma map_add_zero (c : R) (v : vec) :
  c = 0 -> map (fun a => a + c) v = v.
Proof.
  intros ->. induction v as [|a v IH]; cbn; [reflexivity|].
  rewrite IH. f_equal. lra.
Qed.

(** Adding [l2_gradient * mu] changes no number and no array. *)
Lemma add_l2_term (n : nat) (m : R) (g : value) :
  py_binop Rplus g (VFloat (IZR (np.zeros_like n) * m)) =
  match g with
  | VNone | VLearningRate _ => Raise TypeError
  | _ => Ok g
  end.
Proof.
  assert (Hz : IZR (np.zeros_like n) * m = 0) by (unfold np.zeros_like; lra).
  destruct g as [|x|v|o]; try reflexivity.
  - cbn. rewrite Hz. do 2 f_equal. lra.
  - destruct v as [|a v]; [reflexivity|].
    cbn [py_binop]. rewrite (map_add_zero _ (a :: v) Hz). reflexivity.
Qed.

Lemma Reg_calc_gradient_outcome
    (base : matrix -> vec -> M value) (X : matrix) (y : vec) (st : world) :
  BaseDescentReg.calc_gradient base X y st =
  match base X y st with
  | (Ok VNone, st') | (Ok (VLearningRate _), st') => (Raise TypeError, st')
  | other => other
  end.
Proof.
  unfold BaseDescentReg.calc_gradient, mbind, M_bind, self, lift.
  destruct (base X y st) as [[g|e] st']; [|reflexivity].
  rewrite add_l2_term. destruct g; reflexivity.
Qed.

Lemma VanillaReg_calc_gradient (X : matrix) (y : vec) (st : world) :
  cls (inst st) = VanillaGradientDescentReg_cls ->
  calc_gradient X y st = (Raise (AttributeError "numpy" "matmult"), st).
Proof.
  intros Hc. rewrite calc_gradient_dispatch, Hc. cbn [mro resolve_calc_gradient].
  rewrite Reg_calc_gradient_outcome. reflexivity.
Qed.

Lemma Stochastic_dispatch (X : matrix) (y : vec) (st : world) :
  cls (inst st) = StochasticDescent_cls ->
  calc_gradient X y st = StochasticDescent.calc_gradient X y st.
Proof.
  intros Hc. rewrite calc_gradient_dispatch, Hc. reflexivity.
Qed.

Lemma StochasticReg_calc_gradient (X : matrix) (y : vec) (st : world) :
  cls (inst st) = StochasticDescentReg_cls ->
  calc_gradient X y st = StochasticDescent.calc_gradient X y st.
Proof.
  intros Hc. rewrite calc_gradient_dispatch, Hc. cbn [mro resolve_calc_gradient].
  rewrite Reg_calc_gradient_outcome, Stochastic_calc_gradient_outcome.
  destruct (batch_size (inst st) <=? 1)%Z; [reflexivity|].
  destruct (random.maxsize <? batch_size (inst st) - 1)%Z; reflexivity.
Qed.

(** C4: the regularized [calc_gradient] adds no penalty.  Whatever array
    [g] the wrapped rule returns, the result is [g] itself for every [mu]
    and every weight vector, since [l2_gradient] is the zero of line 149
    and not [2 * w].  On the three regularized classes of the module the
    wrapped rule returns no array: the call raises (for the stochastic
    one, as the stochastic rule itself does). *)
Theorem C4_regularized_gradient_has_no_penalty
    (g : vec) (X : matrix) (y : vec) (st : world) :
  BaseDescentReg.calc_gradient (fun _ _ => mret (VArr g)) X y st
    = (Ok (VArr g), st) /\
  calc_gradient X y (retag VanillaGradientDescentReg_cls st)
    = (Raise (AttributeError "numpy" "matmult"),
       retag VanillaGradientDescentReg_cls st) /\
  fst (calc_gradient X y (retag StochasticDescentReg_cls st))
    = Raise (if (batch_size (inst st) <=? 1)%Z then IndexError
             else if (random.maxsize <? batch_size (inst st) - 1)%Z
                  then OverflowError else TypeError) /\
  calc_gradient X y (retag BaseDescentReg_cls st)
    = (Raise TypeError, retag BaseDescentReg_cls st).
Proof.
  split; [|split; [|split]].
  - rewrite Reg_calc_gradient_outcome. reflexivity.
  - apply VanillaReg_calc_gradient. reflexivity.
  - rewrite StochasticReg_calc_gradient by reflexivity.
    rewrite Stochastic_calc_gradient_outcome. cbn [retag inst batch_size].
    destruct (batch_size (inst st) <=? 1)%Z; [reflexivity|].
    destruct (random.maxsize <? batch_size (inst st) - 1)%Z; reflexivity.
  - rewrite calc_gradient_dispatch. cbn [retag inst cls mro resolve_calc_gradient].
    rewrite Reg_calc_gradient_outcome. reflexivity.
Qed.

Lemma Stochastic_calc_gradient_retag
    (c : class) (X : matrix) (y : vec) (st : world) :
  StochasticDescent.calc_gradient X y (retag c st) =
  let (r, st') := StochasticDescent.calc_gradient X y st in (r, retag c st').
Proof.
  rewrite !Stochastic_calc_gradient_outcome. cbn [retag inst batch_size].
  destruct (batch_size (inst st) <=? 1)%Z; [reflexivity|].
  destruct (random.maxsize <? batch_size (inst st) - 1)%Z; reflexivity.
Qed.

(** C5: with [mu = 0] a regularized class computes what its plain class
    computes on the same attributes and the same generator state: the same
    outcome, the same numbers consumed.  This holds for the two pairs of
    the module and for [BaseDescentReg.calc_gradient] over any wrapped rule
    whose outcome is a number, an array or an exception. *)
Theorem C5_mu_zero_same_gradient (X : matrix) (y : vec) (st : world) :
  mu (inst st) = 0 ->
  calc_gradient X y (retag VanillaGradientDescentReg_cls st)
    = (let (r, st') := calc_gradient X y (retag VanillaGradientDescent_cls st)
       in (r, retag VanillaGradientDescentReg_cls st')) /\
  calc_gradient X y (retag StochasticDescentReg_cls st)
    = (let (r, st') := calc_gradient X y (retag StochasticDescent_cls st)
       in (r, retag StochasticDescentReg_cls st')) /\
  forall base : matrix -> vec -> M value,
    numeric_or_raise (fst (base X y st)) = true ->
    BaseDescentReg.calc_gradient base X y st = base X y st.
Proof.
  intros _. split; [|split].
  - rewrite VanillaReg_calc_gradient by reflexivity. reflexivity.
  - rewrite StochasticReg_calc_gradient by reflexivity.
    rewrite (Stochastic_dispatch X y (retag StochasticDescent_cls st))
      by reflexivity.
    rewrite !Stochastic_calc_gradient_retag.
    destruct (StochasticDescent.calc_gradient X y st); reflexivity.
  - intros base Hb. rewrite Reg_calc_gradient_outcome.
    destruct (base X y st) as [[[ | | | ]|e] st']; cbn in Hb;
      try discriminate; reflexivity.
Qed.

Lemma C5_witness :
  calc_gradient X3 y3 (retag VanillaGradientDescentReg_cls
                         (world0 BaseDescent_cls [0; 0] 50 0))
  = (Raise (AttributeError "numpy" "matmult"),
     retag VanillaGradientDescentReg_cls (world0 BaseDescent_cls [0; 0] 50 0)).
Proof.
  apply (C5_mu_zero_same_gradient X3 y3 (world0 BaseDescent_cls [0; 0] 50 0)).
  reflexivity.
Defined.

(** ** The float range *)

Lemma float_overflow_large : 1000 < float_overflow.
Proof. unfold float_overflow. apply IZR_lt. vm_compute. reflexivity. Qed.

Lemma float_underflow_pos : 0 < float_underflow.
Proof.
  unfold float_underflow. apply Rinv_0_lt_compat, (IZR_lt 0).
  vm_compute. reflexivity.
Qed.

Lemma float_underflow_small : float_underflow < / 1000.
Proof.
  unfold float_underflow. apply Rinv_lt_contravar.
  - apply Rmult_lt_0_compat; [lra|]. apply (IZR_lt 0). vm_compute. reflexivity.
  - apply IZR_lt. vm_compute. reflexivity.
Qed.

Lemma float_min_above_underflow : float_underflow < float_min.
Proof.
  unfold float_underflow, float_min. apply Rinv_lt_contravar.
  - apply Rmult_lt_0_compat; apply (IZR_lt 0); vm_compute; reflexivity.
  - apply IZR_lt. vm_compute. reflexivity.
Qed.

Lemma float_min_small : float_min < / 1000.
Proof.
  unfold float_min. apply Rinv_lt_contravar.
  - apply Rmult_lt_0_compat; [lra|]. apply (IZR_lt 0). vm_compute. reflexivity.
  - apply IZR_lt. vm_compute. reflexivity.
Qed.

Lemma fl_below_overflow (v : R) :
  Rabs v < float_overflow -> fl v = Fin (flush v).
Proof.
  intros H. unfold fl.
  destruct (Rle_dec float_overflow (Rabs v)); [lra|reflexivity].
Qed.

Lemma flush_above_underflow (v : R) :
  float_underflow < Rabs v -> flush v = v.
Proof.
  intros H. unfold flush.
  destruct (Rle_dec (Rabs v) float_underflow); [lra|reflexivity].
Qed.

Lemma flush_zero : flush 0 = 0.
Proof. unfold flush. destruct (Rle_dec (Rabs 0) float_underflow); reflexivity. Qed.

Lemma flush_between (v : R) : 0 <= v -> 0 <= flush v <= v.
Proof.
  intros H. unfold flush.
  destruct (Rle_dec (Rabs v) float_underflow); lra.
Qed.

Lemma flush_abs_le (v : R) : Rabs (flush v) <= Rabs v.
Proof.
  unfold flush. destruct (Rle_dec (Rabs v) float_underflow); [|lra].
  rewrite Rabs_R0. apply Rabs_pos.
Qed.

Lemma fl_in_range (x : R) : in_float_range x -> fl x = Fin x.
Proof.
  intros [Ho Hu]. rewrite fl_below_overflow by exact Ho. f_equal.
  destruct Hu as [-> | Hu]; [apply flush_zero|].
  apply flush_above_underflow, Hu.
Qed.

Lemma fl_zero : fl 0 = Fin 0.
Proof.
  apply fl_in_range. split; [|left; reflexivity].
  rewrite Rabs_R0. pose proof float_overflow_large. lra.
Qed.

(** ** The learning-rate schedule *)

(** The quotient [s0 / (s0 + t)] of line 24 for a finite positive [s0] and
    a counter [t >= 1] that converts: a float between 0 and the exact
    quotient, and the exact quotient itself inside the range. *)
Lemma quotient_outcome (a : pynum) (t : Z) :
  finite_num a -> 0 < num_value a -> (1 <= t)%Z ->
  (is_float a = true -> IZR t < float_overflow) ->
  exists q,
    (d ← add_int a t; py_truediv a d) = Ok (Fin q) /\
    0 <= q <= num_value a / (num_value a + IZR t) /\
    (num_value a + IZR t < float_overflow ->
     float_underflow < num_value a / (num_value a + IZR t) ->
     q = num_value a / (num_value a + IZR t)).
Proof.
  intros Hf Hs Ht Hconv.
  assert (HT : 1 <= IZR t) by (apply IZR_le; exact Ht).
  pose proof float_overflow_large as Hbig.
  pose proof float_underflow_pos as Hu0.
  destruct a as [z|[x|s|]]; cbn [finite_num] in Hf; try contradiction;
    cbn [num_value is_float] in *.
  - (* an int *)
    assert (Hz : (0 < z)%Z) by (apply lt_IZR; exact Hs).
    assert (Hq : 0 < IZR z / (IZR z + IZR t) < 1).
    { split; [apply Rdiv_lt_0_compat; lra|].
      apply (Rmult_lt_reg_r (IZR z + IZR t)); [lra|].
      unfold Rdiv. rewrite Rmult_assoc, Rinv_l by lra. lra. }
    exists (flush (IZR z / (IZR z + IZR t))).
    cbn [add_int mbind result_bind py_truediv].
    destruct (Z.eqb_spec (z + t) 0) as [E|_]; [lia|].
    rewrite plus_IZR.
    destruct (Rle_dec float_overflow (Rabs (IZR z / (IZR z + IZR t)))) as [E|_].
    { rewrite Rabs_pos_eq in E by lra. lra. }
    rewrite fl_below_overflow by (rewrite Rabs_pos_eq by lra; lra).
    split; [reflexivity|]. split; [apply flush_between; lra|].
    intros _ H. apply flush_above_underflow. rewrite Rabs_pos_eq by lra. exact H.
  - (* a finite float *)
    specialize (Hconv eq_refl).
    assert (Hq : 0 < x / (x + IZR t) < 1).
    { split; [apply Rdiv_lt_0_compat; lra|].
      apply (Rmult_lt_reg_r (x + IZR t)); [lra|].
      unfold Rdiv. rewrite Rmult_assoc, Rinv_l by lra. lra. }
    cbn [add_int]. unfold float_of_int.
    destruct (Rle_dec float_overflow (Rabs (IZR t))) as [E|_].
    { rewrite Rabs_pos_eq in E by lra. lra. }
    cbn [mbind result_bind float_add py_truediv to_float].
    unfold fl at 1.
    destruct (Rle_dec float_overflow (Rabs (x + IZR t))) as [Ho|Ho].
    + (* the sum is an infinity *)
      exists 0. cbn [float_div]. split; [reflexivity|]. split; [lra|].
      intros H. rewrite Rabs_pos_eq in Ho by lra. lra.
    + rewrite flush_above_underflow
        by (rewrite Rabs_pos_eq by lra; pose proof float_underflow_small; lra).
      cbn [float_div].
      destruct (Req_dec_T (x + IZR t) 0) as [E|_]; [lra|].
      exists (flush (x / (x + IZR t))).
      rewrite fl_below_overflow by (rewrite Rabs_pos_eq by lra; lra).
      split; [reflexivity|]. split; [apply flush_between; lra|].
      intros _ H. apply flush_above_underflow.
      rewrite Rabs_pos_eq by lra. exact H.
Qed.

Lemma Rpower_le_one (q pw : R) : 0 < q <= 1 -> 0 <= pw -> Rpower q pw <= 1.
Proof.
  intros [Hq Hq1] Hp. unfold Rpower.
  assert (Hln : ln q <= 0).
  { destruct Hq1 as [Hq1| ->]; [|rewrite ln_1; lra].
    left. rewrite <- ln_1. apply ln_increasing; lra. }
  assert (Hm : pw * ln q <= 0) by nra.
  destruct Hm as [Hm|Hm].
  - left. rewrite <- exp_0. apply exp_increasing, Hm.
  - rewrite Hm, exp_0. lra.
Qed.

Lemma Rpower_ge_base (q pw : R) : 0 < q <= 1 -> 0 <= pw <= 1 -> q <= Rpower q pw.
Proof.
  intros [Hq Hq1] [Hp Hp1]. unfold Rpower.
  assert (Hln : ln q <= 0).
  { destruct Hq1 as [Hq1| ->]; [|rewrite ln_1; lra].
    left. rewrite <- ln_1. apply ln_increasing; lra. }
  assert (Hm : ln q <= pw * ln q) by nra.
  rewrite <- (exp_ln q) at 1 by exact Hq.
  destruct Hm as [Hm|Hm].
  - left. apply exp_increasing, Hm.
  - rewrite <- Hm. lra.
Qed.

(** [q ** pw] for a float [q] of [[0, 1]] and [pw >= 0]: a float of
    [[0, 1]], never an exception. *)
Lemma pow_of_unit_base (q pw : R) :
  0 <= q <= 1 -> 0 <= pw ->
  exists w,
    float_pow (Fin q) pw = Ok (Real w) /\
    0 <= w <= 1 /\
    (0 < q -> w <= Rpower q pw) /\
    (q = 0 -> 0 < pw -> w = 0) /\
    (pw = 0 -> w = 1) /\
    (pw <= 1 -> float_underflow < q -> w = Rpower q pw).
Proof.
  intros [Hq Hq1] Hp. unfold float_pow.
  pose proof float_overflow_large as Hbig.
  destruct (Req_dec_T pw 0) as [->|Hp0].
  { exists 1. split; [reflexivity|]. split; [lra|].
    split; [intros H; rewrite Rpower_O by exact H; lra|].
    split; [intros _ H; lra|]. split; [reflexivity|].
    intros _ H. pose proof float_underflow_pos.
    rewrite Rpower_O by lra. reflexivity. }
  destruct (Req_dec_T q 0) as [->|Hq0].
  { destruct (Rlt_dec pw 0); [lra|].
    exists 0. split; [reflexivity|]. split; [lra|].
    split; [intros H; lra|]. split; [reflexivity|].
    split; [intros H; lra|].
    intros _ H. pose proof float_underflow_pos. lra. }
  destruct (Rlt_dec q 0); [lra|].
  assert (Hpos : 0 < Rpower q pw) by (unfold Rpower; apply exp_pos).
  assert (Hle : Rpower q pw <= 1) by (apply Rpower_le_one; lra).
  unfold checked_pow.
  destruct (Rle_dec float_overflow (Rpower q pw)); [lra|].
  rewrite fl_below_overflow by (rewrite Rabs_pos_eq by lra; lra).
  exists (flush (Rpower q pw)).
  pose proof (flush_between (Rpower q pw) ltac:(lra)) as Hfl.
  split; [reflexivity|]. split; [lra|]. split; [intros _; lra|].
  split; [intros H; lra|]. split; [intros H; lra|].
  intros Hp1 Hu. apply flush_above_underflow.
  rewrite Rabs_pos_eq by lra.
  pose proof (Rpower_ge_base q pw ltac:(lra) ltac:(lra)). lra.
Qed.

(** A call for a finite positive [s0], a counter that is not negative and
    [p >= 0], when the advanced counter converts: the product of
    [lambda_] and a float of [[0, 1]]. *)
Lemma call_bounded (lam : R) (a : pynum) (pw : R) (t : Z) :
  finite_num a -> 0 < num_value a -> (0 <= t)%Z -> 0 <= pw ->
  (is_float a = true -> IZR (t + 1) < float_overflow) ->
  exists w,
    fst (LearningRate__call__
           {| lambda_ := lam; s0 := a; p := pw; iteration := t |})
      = Ok (Float (fl (lam * w))) /\
    0 <= w <= 1 /\
    (0 < pw -> w <= Rpower (num_value a / (num_value a + IZR (t + 1))) pw) /\
    (pw = 0 -> w = 1) /\
    (pw <= 1 ->
     num_value a + IZR (t + 1) < float_overflow ->
     float_underflow < num_value a / (num_value a + IZR (t + 1)) ->
     w = Rpower (num_value a / (num_value a + IZR (t + 1))) pw).
Proof.
  intros Hf Hs Ht Hp Hconv.
  destruct (quotient_outcome a (t + 1) Hf Hs ltac:(lia) Hconv)
    as (q & Hq & [Hq0 Hq1] & Hqx).
  assert (HT : 1 <= IZR (t + 1)) by (apply IZR_le; lia).
  assert (Hex : 0 < num_value a / (num_value a + IZR (t + 1)) < 1).
  { split; [apply Rdiv_lt_0_compat; lra|].
    apply (Rmult_lt_reg_r (num_value a + IZR (t + 1))); [lra|].
    unfold Rdiv. rewrite Rmult_assoc, Rinv_l by lra. lra. }
  destruct (pow_of_unit_base q pw ltac:(lra) Hp)
    as (w & Hw & Hw01 & Hwle & Hwz & Hw1 & Hwx).
  exists w. unfold LearningRate__call__. cbn [lambda_ s0 p iteration fst].
  destruct (add_int a (t + 1)) as [d|e] eqn:Ed;
    cbn [mbind result_bind] in Hq |- *; [|discriminate].
  rewrite Hq. cbn [mbind result_bind]. rewrite Hw.
  split; [reflexivity|]. split; [exact Hw01|].
  split; [|split; [exact Hw1|]].
  - intros Hp0. destruct (Req_dec_T q 0) as [E|E].
    + rewrite (Hwz E Hp0). left. unfold Rpower. apply exp_pos.
    + assert (0 < q) by lra. etransitivity; [apply Hwle; assumption|].
      apply Rle_Rpower_l; lra.
  - intros Hp1 Ho Hu. rewrite (Hqx Ho Hu) in *. apply Hwx; assumption.
Qed.

Lemma call_state (sched : LearningRate) :
  snd (LearningRate__call__ sched)
  = {| lambda_ := lambda_ sched; s0 := s0 sched; p := p sched;
       iteration := (iteration sched + 1)%Z |}.
Proof. reflexivity. Qed.

Lemma calls_succ (k : nat) (sched : LearningRate) :
  calls (S k) sched =
  (fst (LearningRate__call__ sched)
     :: fst (calls k (snd (LearningRate__call__ sched))),
   snd (calls k (snd (LearningRate__call__ sched)))).
Proof.
  cbn [calls]. destruct (LearningRate__call__ sched) as [r s'].
  cbn [fst snd]. destruct (calls k s') as [rs s'']. reflexivity.
Qed.

Lemma calls_state (k : nat) (sched : LearningRate) :
  snd (calls k sched)
  = {| lambda_ := lambda_ sched; s0 := s0 sched; p := p sched;
       iteration := (iteration sched + Z.of_nat k)%Z |}.
Proof.
  revert sched. induction k as [|k IH]; intros sched.
  - destruct sched. cbn. f_equal. lia.
  - rewrite calls_succ. cbn [snd]. rewrite IH, call_state.
    cbn [lambda_ s0 p iteration]. f_equal. lia.
Qed.

Section Schedule.

Variables lam s pw : R.
Hypothesis s_pos : 0 < s.

Lemma base_pos (t : Z) : (0 <= t)%Z -> 0 < s / (s + IZR t).
Proof.
  intros Ht. apply IZR_le in Ht.
  apply Rdiv_lt_0_compat; lra.
Qed.

Lemma base_decreasing (t : Z) :
  (0 <= t)%Z -> s / (s + IZR (t + 1)) < s / (s + IZR t).
Proof.
  intros Ht. apply IZR_le in Ht. rewrite plus_IZR.
  unfold Rdiv. apply Rmult_lt_compat_l; [exact s_pos|].
  apply Rinv_lt_contravar; [|lra].
  apply Rmult_lt_0_compat; lra.
Qed.

Lemma base_antitone (t u : Z) :
  (0 <= t <= u)%Z -> s / (s + IZR u) <= s / (s + IZR t).
Proof.
  intros [Ht Hu]. apply IZR_le in Ht, Hu.
  unfold Rdiv. apply Rmult_le_compat_l; [lra|].
  apply Rinv_le_contravar; lra.
Qed.

Lemma rate_decreasing (t : Z) :
  0 < lam -> 0 < pw -> (0 <= t)%Z ->
  rate_formula lam s pw (t + 1) < rate_formula lam s pw t.
Proof.
  intros Hl Hp Ht. unfold rate_formula.
  apply Rmult_lt_compat_l; [exact Hl|].
  apply Rlt_Rpower_l; [exact Hp|].
  split; [apply base_pos; lia | apply base_decreasing; exact Ht].
Qed.

Lemma rate_constant (t : Z) :
  (0 <= t)%Z -> pw = 0 -> rate_formula lam s pw t = lam.
Proof.
  intros Ht ->. unfold rate_formula.
  rewrite Rpower_O by (apply base_pos; exact Ht). lra.
Qed.

End Schedule.

Lemma map_constant {A B} (f : A -> B) (c : B) (l : list A) :
  (forall j, f j = c) -> map f l = repeat c (length l).
Proof.
  intros H. induction l as [|x l IH]; cbn; [reflexivity|].
  rewrite H, IH. reflexivity.
Qed.

(** Inside the float range a call returns the float of the formula at the
    advanced counter. *)
Lemma call_outcome (lam : R) (a : pynum) (pw : R) (t : Z) :
  finite_num a -> 0 < num_value a -> (0 <= t)%Z -> 0 <= pw <= 1 ->
  num_value a + IZR (t + 1) < float_overflow ->
  float_underflow < num_value a / (num_value a + IZR (t + 1)) ->
  fst (LearningRate__call__
         {| lambda_ := lam; s0 := a; p := pw; iteration := t |})
  = Ok (Float (fl (rate_formula lam (num_value a) pw (t + 1)))).
Proof.
  intros Hf Hs Ht [Hp Hp1] Ho Hu.
  assert (HT : 1 <= IZR (t + 1)) by (apply IZR_le; lia).
  destruct (call_bounded lam a pw t Hf Hs Ht Hp ltac:(intros _; lra))
    as (w & Hw & _ & _ & _ & Hwx).
  rewrite Hw, (Hwx Hp1 Ho Hu). reflexivity.
Qed.

Lemma calls_outcome (lam : R) (a : pynum) (pw : R) (k : nat) (t : Z) :
  finite_num a -> 0 < num_value a -> (0 <= t)%Z -> 0 <= pw <= 1 ->
  num_value a + IZR (t + Z.of_nat k) < float_overflow ->
  float_underflow < num_value a / (num_value a + IZR (t + Z.of_nat k)) ->
  fst (calls k {| lambda_ := lam; s0 := a; p := pw; iteration := t |})
  = map (fun j => Ok (Float (fl (rate_formula lam (num_value a) pw
                                   (t + 1 + Z.of_nat j)))))
        (seq 0 k).
Proof.
  intros Hf Hs. revert t. induction k as [|k IH]; intros t Ht Hp Ho Hu;
    [reflexivity|].
  rewrite calls_succ, call_state. cbn [fst lambda_ s0 p iteration].
  assert (Hle : IZR (t + 1) <= IZR (t + Z.of_nat (S k))) by (apply IZR_le; lia).
  rewrite call_outcome; try assumption.
  - rewrite IH; try assumption; try lia.
    + cbn [seq map]. f_equal.
      * replace (t + 1 + Z.of_nat 0)%Z with (t + 1)%Z by lia. reflexivity.
      * rewrite <- seq_shift, map_map. apply map_ext. intros j.
        replace (t + 1 + 1 + Z.of_nat j)%Z
          with (t + 1 + Z.of_nat (S j))%Z by lia.
        reflexivity.
    + replace (t + 1 + Z.of_nat k)%Z with (t + Z.of_nat (S k))%Z by lia.
      exact Ho.
    + replace (t + 1 + Z.of_nat k)%Z with (t + Z.of_nat (S k))%Z by lia.
      exact Hu.
  - lra.
  - eapply Rlt_le_trans; [exact Hu|].
    apply base_antitone; [exact Hs|lia].
Qed.

(** C6, as amended.  For a schedule with a finite [s0 > 0],
    [0 <= p <= 1] and a counter that is not negative, and for calls that
    stay well inside the float range (twice the sum of [s0] and the last
    counter below the largest float, [s0] over that sum not below the
    smallest normal float), every call advances the counter by one and
    returns the float of [lambda_ * (s0 / (s0 + iteration)) ^ p] at the
    advanced counter, so a fresh schedule first returns that of
    [lambda_ * (s0 / (s0 + 1)) ^ p].  The exact values of the formula are
    strictly decreasing in the counter when [p > 0] and [lambda_ > 0];
    the floats returned are their roundings and need not be.  When
    [p = 0] every call returns [lambda_]. *)
Theorem C6_schedule_formula_and_monotonicity
    (sched : LearningRate) (k : nat) :
  finite_num (s0 sched) -> 0 < num_value (s0 sched) ->
  (0 <= iteration sched)%Z -> 0 <= p sched <= 1 ->
  2 * (num_value (s0 sched) + IZR (iteration sched + Z.of_nat (S k)))
    < float_overflow ->
  float_min
    <= num_value (s0 sched)
       / (num_value (s0 sched) + IZR (iteration sched + Z.of_nat (S k))) ->
  fst (calls (S k) sched)
    = map (fun j =>
             Ok (Float (fl (rate_formula (lambda_ sched)
                              (num_value (s0 sched)) (p sched)
                              (iteration sched + 1 + Z.of_nat j)))))
          (seq 0 (S k)) /\
  iteration (snd (calls (S k) sched))
    = (iteration sched + Z.of_nat (S k))%Z /\
  (iteration sched = 0%Z ->
   fst (LearningRate__call__ sched)
     = Ok (Float (fl (lambda_ sched *
                      Rpower (num_value (s0 sched)
                              / (num_value (s0 sched) + 1)) (p sched))))) /\
  (0 < lambda_ sched -> 0 < p sched ->
   forall t, (0 <= t)%Z ->
     rate_formula (lambda_ sched) (num_value (s0 sched)) (p sched) (t + 1)
     < rate_formula (lambda_ sched) (num_value (s0 sched)) (p sched) t) /\
  (p sched = 0 -> in_float_range (lambda_ sched) ->
   fst (calls (S k) sched) = repeat (Ok (Real (lambda_ sched))) (S k)).
Proof.
  destruct sched as [lam a pw t]. cbn [lambda_ s0 p iteration].
  intros Hf Hs Ht Hp Ho2 Hu2.
  assert (Hlast : 0 <= IZR (t + Z.of_nat (S k))) by (apply IZR_le; lia).
  assert (Ho : num_value a + IZR (t + Z.of_nat (S k)) < float_overflow)
    by lra.
  assert (Hu : float_underflow
               < num_value a / (num_value a + IZR (t + Z.of_nat (S k))))
    by (pose proof float_min_above_underflow; lra).
  assert (Hcalls := calls_outcome lam a pw (S k) t Hf Hs Ht Hp Ho Hu).
  split; [exact Hcalls|]. split; [rewrite calls_state; reflexivity|].
  split; [|split].
  - intros ->.
    assert (Hle : IZR (0 + 1) <= IZR (0 + Z.of_nat (S k)))
      by (apply IZR_le; lia).
    rewrite call_outcome; try assumption; [reflexivity|lra|].
    eapply Rlt_le_trans; [exact Hu|].
    apply base_antitone; [exact Hs|lia].
  - intros Hl Hp0 u Hu0. apply rate_decreasing; assumption.
  - intros -> Hl. rewrite Hcalls.
    rewrite <- (length_seq (S k) 0) at 2. apply map_constant. intros j.
    rewrite rate_constant; [|exact Hs|lia|reflexivity].
    rewrite fl_in_range by exact Hl. reflexivity.
Qed.

Lemma C6_witness :
  fst (LearningRate__call__ lr0)
  = Ok (Float (fl (1 / 10 * Rpower (1 / (1 + 1)) (1 / 2)))).
Proof.
  pose proof float_overflow_large as Hbig.
  pose proof float_min_small as Hsmall.
  assert (Hf : finite_num (s0 lr0)) by exact I.
  assert (Hs : 0 < num_value (s0 lr0)) by (cbn; lra).
  assert (Ht : (0 <= iteration lr0)%Z) by (cbn; lia).
  assert (Hp : 0 <= p lr0 <= 1) by (cbn; lra).
  assert (Ho : 2 * (num_value (s0 lr0) + IZR (iteration lr0 + Z.of_nat 2))
               < float_overflow).
  { cbn [lr0 s0 iteration num_value].
    replace (IZR (0 + Z.of_nat 2)) with 2 by reflexivity. lra. }
  assert (Hu : float_min
               <= num_value (s0 lr0)
                  / (num_value (s0 lr0) + IZR (iteration lr0 + Z.of_nat 2))).
  { cbn [lr0 s0 iteration num_value].
    replace (IZR (0 + Z.of_nat 2)) with 2 by reflexivity. lra. }
  destruct (C6_schedule_formula_and_monotonicity lr0 1 Hf Hs Ht Hp Ho Hu)
    as (_ & _ & H & _).
  apply H. reflexivity.
Defined.

(** C6 as stated fails: with [s0 = 1 > 0], [p = 1 > 0] and
    [lambda_ = 0] the first two calls both return 0, so the second value
    is not below the first. *)
Lemma C6_counterexample :
  0 < num_value (s0 lr_zero) /\ 0 < p lr_zero /\
  exists a b,
    fst (calls 2 lr_zero) = [Ok (Real a); Ok (Real b)] /\ ~ b < a.
Proof.
  pose proof float_overflow_large as Hbig.
  pose proof float_underflow_small as Hsmall.
  split; [cbn; lra|]. split; [cbn; lra|].
  unfold lr_zero. rewrite calls_outcome.
  - exists 0, 0. split; [|lra]. cbn [seq map]. unfold rate_formula.
    rewrite !Rmult_0_l, fl_zero. reflexivity.
  - exact I.
  - cbn. lra.
  - lia.
  - lra.
  - cbn [num_value]. replace (IZR (0 + Z.of_nat 2)) with 2 by reflexivity. lra.
  - cbn [num_value]. replace (IZR (0 + Z.of_nat 2)) with 2 by reflexivity. lra.
Qed.

(** ** Prediction and loss *)

Lemma dot_self_nonneg (v : vec) : 0 <= dot v v.
Proof.
  induction v as [|a v IH]; cbn; [lra|].
  pose proof (Rle_0_sqr a) as Ha. unfold Rsqr in Ha. lra.
Qed.

Lemma dot_residual_zero (y : vec) :
  dot (zip_with_R Rminus y y) (zip_with_R Rminus y y) = 0.
Proof.
  induction y as [|a y IH]; cbn; [reflexivity|].
  rewrite IH. lra.
Qed.

Lemma predict_outcome (X : matrix) (st : world) :
  BaseDescent.predict X st =
  (if (ncols X =? length (w (inst st)))%nat
   then Ok (map (fun r => dot r (w (inst st))) (rows X))
   else Raise np.mismatch,
   st).
Proof. reflexivity. Qed.

Lemma calc_loss_outcome (X : matrix) (y : vec) (st : world) :
  ncols X = length (w (inst st)) ->
  length y = nrows X ->
  (0 < nrows X)%nat ->
  BaseDescent.calc_loss X y st =
  (Ok (1 / INR (nrows X) *
       dot (zip_with_R Rminus y (map (fun r => dot r (w (inst st))) (rows X)))
           (zip_with_R Rminus y (map (fun r => dot r (w (inst st))) (rows X)))),
   st).
Proof.
  intros Hc Hy Hn.
  unfold BaseDescent.calc_loss, mbind, M_bind. rewrite predict_outcome.
  rewrite Hc, Nat.eqb_refl. unfold lift, broadcast.
  assert (Hl : length y = length (map (fun r => dot r (w (inst st))) (rows X)))
    by (rewrite length_map; exact Hy).
  rewrite Hl, Nat.eqb_refl. unfold truediv.
  destruct (Req_dec_T (INR (length (map (fun r => dot r (w (inst st))) (rows X)))) 0)
    as [E|_].
  { rewrite <- Hl, Hy in E. apply (INR_eq _ 0) in E. lia. }
  unfold np.matmul1, np.transpose1. rewrite Nat.eqb_refl.
  rewrite <- Hl, Hy. reflexivity.
Qed.

(** C7: for [X] with [n >= 1] rows and as many columns as there are
    weights, and [y] of length [n], [calc_loss] returns
    [(1/n) * (diff . diff)] with [diff = y - predict(X)]; the value is not
    negative, and it is 0 when the prediction equals [y]. *)
Theorem C7_calc_loss_is_mean_squared_error
    (X : matrix) (y : vec) (st : world) :
  ncols X = length (w (inst st)) ->
  length y = nrows X ->
  (0 < nrows X)%nat ->
  exists yhat loss,
    BaseDescent.predict X st = (Ok yhat, st) /\
    BaseDescent.calc_loss X y st = (Ok loss, st) /\
    loss = 1 / INR (nrows X) *
           dot (zip_with_R Rminus y yhat) (zip_with_R Rminus y yhat) /\
    0 <= loss /\
    (yhat = y -> loss = 0).
Proof.
  intros Hc Hy Hn.
  exists (map (fun r => dot r (w (inst st))) (rows X)).
  eexists. split; [|split; [|split; [reflexivity|split]]].
  - rewrite predict_outcome, Hc, Nat.eqb_refl. reflexivity.
  - apply calc_loss_outcome; assumption.
  - apply Rmult_le_pos; [|apply dot_self_nonneg].
    assert (0 < INR (nrows X)) by (apply lt_0_INR; lia).
    apply Rlt_le, Rdiv_lt_0_compat; lra.
  - intros ->. rewrite dot_residual_zero. lra.
Qed.

Lemma C7_witness :
  exists yhat loss,
    BaseDescent.predict X3 (world0 BaseDescent_cls [1; 1] 50 0)
      = (Ok yhat, world0 BaseDescent_cls [1; 1] 50 0) /\
    BaseDescent.calc_loss X3 y3 (world0 BaseDescent_cls [1; 1] 50 0)
      = (Ok loss, world0 BaseDescent_cls [1; 1] 50 0) /\
    loss = 1 / INR (nrows X3) *
           dot (zip_with_R Rminus y3 yhat) (zip_with_R Rminus y3 yhat) /\
    0 <= loss /\
    (yhat = y3 -> loss = 0).
Proof.
  apply (C7_calc_loss_is_mean_squared_error X3 y3
           (world0 BaseDescent_cls [1; 1] 50 0)).
  - reflexivity.
  - reflexivity.
  - cbn. lia.
Defined.

(** ** Shape errors and the weights across [step] *)

Lemma consume_inst (st : world) : inst (consume st) = inst st.
Proof. reflexivity. Qed.

Lemma advance_inst (k : nat) (st : world) : inst (advance k st) = inst st.
Proof.
  revert st. induction k as [|k IH]; intros st; [reflexivity|].
  cbn [advance]. rewrite IH. apply consume_inst.
Qed.

Lemma resolve_calc_gradient_inst
    (order : list class) (X : matrix) (y : vec) (st : world) :
  inst (snd (resolve_calc_gradient order X y st)) = inst st.
Proof.
  induction order as [|c rest IH]; [reflexivity|].
  destruct c; cbn [resolve_calc_gradient]; try exact IH; try reflexivity.
  - rewrite Stochastic_calc_gradient_outcome.
    destruct (batch_size (inst st) <=? 1)%Z; cbn [snd].
    + apply consume_inst.
    + destruct (random.maxsize <? batch_size (inst st) - 1)%Z; cbn [snd].
      * reflexivity.
      * apply advance_inst.
  - rewrite Reg_calc_gradient_outcome.
    destruct (resolve_calc_gradient rest X y st) as [[[ | | | ]|e] st'];
      exact IH.
Qed.

Lemma resolve_update_weights_inst
    (order : list class) (g : value) (st : world) :
  inst (snd (resolve_update_weights order g st)) = inst st.
Proof.
  induction order as [|c rest IH]; [reflexivity|].
  destruct c; cbn [resolve_update_weights]; try exact IH; reflexivity.
Qed.

Lemma step_inst (X : matrix) (y : vec) (st : world) :
  inst (snd (step X y st)) = inst st.
Proof.
  rewrite step_unfold, calc_gradient_dispatch.
  pose proof (resolve_calc_gradient_inst (mro (cls (inst st))) X y st) as H.
  destruct (resolve_calc_gradient (mro (cls (inst st))) X y st)
    as [[g|e] st']; cbn [snd] in *; [|exact H].
  rewrite update_weights_dispatch, resolve_update_weights_inst. exact H.
Qed.

(** C9, as amended: [predict] returns [X . w] when [X] has as many columns
    as there are weights and otherwise fails with numpy's shape error,
    raised by the [matmul] call itself; it takes no [y], so the length of
    [y] plays no part.  A [step] that fails leaves the weight vector as it
    was. *)
Theorem C9_predict_shape_error_and_failed_step
    (X : matrix) (y : vec) (st : world) :
  BaseDescent.predict X st =
    (if (ncols X =? length (w (inst st)))%nat
     then Ok (map (fun r => dot r (w (inst st))) (rows X))
     else Raise np.mismatch,
     st) /\
  DimensionMismatch (fst (BaseDescent.predict X st))
    = negb (ncols X =? length (w (inst st)))%nat /\
  (forall e : exn,
     fst (step X y st) = Raise e ->
     w (inst (snd (step X y st))) = w (inst st)).
Proof.
  split; [reflexivity|]. split.
  - rewrite predict_outcome. cbn [fst].
    destruct (ncols X =? length (w (inst st)))%nat; reflexivity.
  - intros e _. rewrite step_inst. reflexivity.
Qed.

Lemma C9_witness :
  w (inst (snd (step X13 [1] (world0 VanillaGradientDescent_cls [0; 0] 50 0))))
  = [0; 0].
Proof.
  destruct (C9_predict_shape_error_and_failed_step X13 [1]
              (world0 VanillaGradientDescent_cls [0; 0] 50 0)) as (_ & _ & H).
  apply (H (AttributeError "numpy" "matmult")). reflexivity.
Defined.

(** C9 as stated fails.  With two weights, [X3] (three rows) and a target
    of length two, [predict] returns and [calc_gradient] of the full-batch
    class raises an [AttributeError]; with [X13] (three columns)
    [calc_gradient] raises the same [AttributeError] and the abstract
    [calc_gradient] returns [None]: none of these is a shape error. *)
Lemma C9_counterexample :
  let st := world0 VanillaGradientDescent_cls [0; 0] 50 0 in
  nrows X3 <> length [1; 1] /\
  DimensionMismatch (fst (BaseDescent.predict X3 st)) = false /\
  DimensionMismatch (fst (calc_gradient X3 [1; 1] st)) = false /\
  ncols X13 <> length (w (inst st)) /\
  DimensionMismatch (fst (calc_gradient X13 [1] st)) = false /\
  fst (calc_gradient X13 [1] (world0 BaseDescent_cls [0; 0] 50 0)) = Ok VNone.
Proof.
  cbn zeta. repeat split; try reflexivity; cbn; lia.
Qed.

(** ** The factory *)

(** C8: [get_descent] returns no instance and raises no [ValueError]: for
    every configuration the construction of [descent_mapping] raises
    [NameError] at its third entry, because the module binds neither
    [MomentumDescent] nor [MomentumDescentReg].  This is so for
    [descent_name = 'full'] and for a name outside the four. *)
Theorem C8_get_descent_raises_NameError
    (new : class -> gmap string pyval -> result descent)
    (descent_config : gmap string pyval) :
  get_descent new descent_config =
    Raise (NameError
             (if truthy (default (PBool false)
                           (descent_config !! "regularized"%string))
              then "MomentumDescentReg" else "MomentumDescent")) /\
  get_descent new (<["descent_name"%string := PStr "full"]> ∅)
    = Raise (NameError "MomentumDescent") /\
  get_descent new (<["descent_name"%string := PStr "bogus"]> ∅)
    = Raise (NameError "MomentumDescent").
Proof.
  split; [|split; reflexivity].
  unfold get_descent.
  destruct (truthy (default (PBool false)
                      (descent_config !! "regularized"%string)));
    reflexivity.
Qed.


(** * Further properties of the module *)

(** ** The schedule beyond its formula *)

Lemma calls_length (k : nat) (sched : LearningRate) :
  length (fst (calls k sched)) = k.
Proof.
  revert sched. induction k as [|k IH]; intros sched; [reflexivity|].
  rewrite calls_succ. cbn [fst length]. rewrite IH. reflexivity.
Qed.

(** X1: whatever the calls return or raise, [k] calls produce [k]
    outcomes, advance the counter by exactly [k] and leave [lambda_],
    [s0] and [p] as they were. *)
Theorem X1_calls_advance_counter_only (k : nat) (sched : LearningRate) :
  length (fst (calls k sched)) = k /\
  iteration (snd (calls k sched)) = (iteration sched + Z.of_nat k)%Z /\
  lambda_ (snd (calls k sched)) = lambda_ sched /\
  s0 (snd (calls k sched)) = s0 sched /\
  p (snd (calls k sched)) = p sched.
Proof.
  split; [apply calls_length|]. rewrite calls_state. repeat split.
Qed.

(** A float [s0] and an advanced counter beyond the float range: the
    conversion of the counter raises. *)
Lemma call_counter_overflow (lam : R) (f : float) (pw : R) (t : Z) :
  float_overflow <= IZR (t + 1) ->
  fst (LearningRate__call__
         {| lambda_ := lam; s0 := PyFloat f; p := pw; iteration := t |})
  = Raise OverflowError.
Proof.
  intros H. unfold LearningRate__call__.
  cbn [lambda_ s0 p iteration fst add_int]. unfold float_of_int.
  pose proof float_overflow_large.
  destruct (Rle_dec float_overflow (Rabs (IZR (t + 1)))) as [_|N];
    [reflexivity|].
  exfalso. apply N. rewrite Rabs_pos_eq by lra. exact H.
Qed.

(** X2: for a finite [s0 > 0], [p >= 0] and a counter that is not
    negative, a call raises exactly when [s0] is a float and the advanced
    counter is too large to become one ([2^1024 - 2^970] or more); the
    exception is [OverflowError].  With an int [s0], which is the default,
    it never raises. *)
Theorem X2_call_raises_only_on_counter_overflow
    (sched : LearningRate) (e : exn) :
  finite_num (s0 sched) -> 0 < num_value (s0 sched) ->
  (0 <= iteration sched)%Z -> 0 <= p sched ->
  (fst (LearningRate__call__ sched) = Raise e <->
   e = OverflowError /\ is_float (s0 sched) = true /\
   float_overflow <= IZR (iteration sched + 1)).
Proof.
  destruct sched as [lam a pw t]. cbn [lambda_ s0 p iteration].
  intros Hf Hs Ht Hp.
  destruct (Rle_dec float_overflow (IZR (t + 1))) as [Ho|Ho].
  - destruct a as [z|f].
    + destruct (call_bounded lam (PyInt z) pw t Hf Hs Ht Hp
                  ltac:(discriminate)) as (w & Hw & _).
      rewrite Hw. split; [discriminate|]. intros (_ & [=] & _).
    + rewrite call_counter_overflow by exact Ho.
      split; [intros [= <-]; auto|intros (-> & _); reflexivity].
  - destruct (call_bounded lam a pw t Hf Hs Ht Hp ltac:(intros _; lra))
      as (w & Hw & _).
    rewrite Hw. split; [discriminate|]. intros (_ & _ & H). lra.
Qed.

Lemma X2_witness :
  fst (LearningRate__call__ lr0) = Raise OverflowError <->
  OverflowError = OverflowError /\ is_float (s0 lr0) = true /\
  float_overflow <= IZR (iteration lr0 + 1).
Proof.
  apply (X2_call_raises_only_on_counter_overflow lr0 OverflowError).
  - exact I.
  - cbn. lra.
  - cbn. lia.
  - cbn. lra.
Defined.

(** X3: for a finite [s0 > 0], a counter that is not negative and
    converts, a finite [lambda_ >= 0] and [p >= 0], a call returns a
    finite float between 0 and [lambda_]: the rate never exceeds the base
    rate. *)
Theorem X3_rate_between_zero_and_lambda (sched : LearningRate) :
  finite_num (s0 sched) -> 0 < num_value (s0 sched) ->
  (0 <= iteration sched)%Z ->
  (is_float (s0 sched) = true -> IZR (iteration sched + 1) < float_overflow) ->
  0 <= lambda_ sched < float_overflow -> 0 <= p sched ->
  exists r, fst (LearningRate__call__ sched) = Ok (Real r) /\
            0 <= r <= lambda_ sched.
Proof.
  destruct sched as [lam a pw t]. cbn [lambda_ s0 p iteration].
  intros Hf Hs Ht Hconv [Hl Hlo] Hp.
  destruct (call_bounded lam a pw t Hf Hs Ht Hp Hconv)
    as (w & Hw & [Hw0 Hw1] & _).
  assert (Hlw : 0 <= lam * w <= lam) by nra.
  rewrite Hw, fl_below_overflow by (rewrite Rabs_pos_eq by lra; lra).
  exists (flush (lam * w)). split; [reflexivity|].
  pose proof (flush_between (lam * w) ltac:(lra)). lra.
Qed.

Lemma X3_witness :
  exists r, fst (LearningRate__call__ lr0) = Ok (Real r) /\ 0 <= r <= 1 / 10.
Proof.
  pose proof float_overflow_large as Hbig.
  apply (X3_rate_between_zero_and_lambda lr0).
  - exact I.
  - cbn. lra.
  - cbn. lia.
  - cbn. discriminate.
  - cbn. lra.
  - cbn. lra.
Defined.

Lemma call_zero_s0 (lam : R) (a : pynum) (pw : R) (t : Z) :
  finite_num a -> num_value a = 0 -> (0 <= t)%Z -> 0 < pw ->
  (is_float a = true -> IZR (t + 1) < float_overflow) ->
  fst (LearningRate__call__
         {| lambda_ := lam; s0 := a; p := pw; iteration := t |})
  = Ok (Real 0).
Proof.
  intros Hf Hz Ht Hp Hconv.
  assert (HT : 1 <= IZR (t + 1)) by (apply IZR_le; lia).
  pose proof float_overflow_large as Hbig.
  pose proof float_underflow_small as Hsmall.
  assert (Hq : (d ← add_int a (t + 1); py_truediv a d) = Ok (Fin 0)).
  { destruct a as [z|[x|s|]]; cbn [finite_num] in Hf; try contradiction;
      cbn [num_value is_float] in *.
    - apply eq_IZR in Hz. subst z.
      cbn [add_int mbind result_bind py_truediv].
      destruct (Z.eqb_spec (0 + (t + 1)) 0) as [E|_]; [lia|].
      assert (E0 : 0 / IZR (0 + (t + 1)) = 0) by (unfold Rdiv; apply Rmult_0_l).
      rewrite E0, Rabs_R0.
      destruct (Rle_dec float_overflow 0); [lra|].
      rewrite fl_zero. reflexivity.
    - subst x. specialize (Hconv eq_refl).
      cbn [add_int]. unfold float_of_int.
      destruct (Rle_dec float_overflow (Rabs (IZR (t + 1)))) as [E|_].
      { rewrite Rabs_pos_eq in E by lra. lra. }
      cbn [mbind result_bind float_add py_truediv to_float].
      rewrite Rplus_0_l.
      rewrite fl_in_range
        by (split; [|right]; rewrite Rabs_pos_eq by lra; lra).
      cbn [float_div].
      destruct (Req_dec_T (IZR (t + 1)) 0); [lra|].
      assert (E0 : 0 / IZR (t + 1) = 0) by (unfold Rdiv; apply Rmult_0_l).
      rewrite E0, fl_zero. reflexivity. }
  unfold LearningRate__call__. cbn [lambda_ s0 p iteration fst].
  destruct (add_int a (t + 1)) as [d|e];
    cbn [mbind result_bind] in Hq |- *; [|discriminate].
  rewrite Hq. cbn [mbind result_bind]. unfold float_pow.
  destruct (Req_dec_T pw 0); [lra|].
  destruct (Req_dec_T 0 0); [|contradiction].
  destruct (Rlt_dec pw 0); [lra|].
  cbn [mbind result_bind mret result_ret scale_number float_mul].
  rewrite Rmult_0_r, fl_zero. reflexivity.
Qed.

(** X4: [s0 = 0] is accepted; with [p > 0] and a counter that is not
    negative (and, for the float zero, converts up to the last call) every
    call returns 0, whatever [lambda_] is. *)
Theorem X4_zero_s0_makes_every_rate_zero (sched : LearningRate) (k : nat) :
  finite_num (s0 sched) -> num_value (s0 sched) = 0 ->
  (0 <= iteration sched)%Z -> 0 < p sched ->
  (is_float (s0 sched) = true ->
   IZR (iteration sched + Z.of_nat k) < float_overflow) ->
  fst (calls k sched) = repeat (Ok (Real 0)) k.
Proof.
  revert sched. induction k as [|k IH]; intros sched Hf Hs Ht Hp Hconv;
    [reflexivity|].
  rewrite calls_succ. cbn [fst repeat]. f_equal.
  - destruct sched as [lam a pw t]. cbn [lambda_ s0 p iteration] in *.
    apply call_zero_s0; try assumption.
    intros Hfl. specialize (Hconv Hfl).
    assert (IZR (t + 1) <= IZR (t + Z.of_nat (S k))) by (apply IZR_le; lia).
    lra.
  - apply IH; rewrite call_state; cbn [lambda_ s0 p iteration];
      try assumption; [lia|].
    intros Hfl. specialize (Hconv Hfl).
    replace (iteration sched + 1 + Z.of_nat k)%Z
      with (iteration sched + Z.of_nat (S k))%Z by lia.
    exact Hconv.
Qed.

Lemma X4_witness :
  fst (calls 3 {| lambda_ := 1; s0 := PyInt 0; p := 1; iteration := 0 |})
  = [Ok (Real 0); Ok (Real 0); Ok (Real 0)].
Proof.
  apply (X4_zero_s0_makes_every_rate_zero
           {| lambda_ := 1; s0 := PyInt 0; p := 1; iteration := 0 |} 3).
  - exact I.
  - reflexivity.
  - cbn. lia.
  - cbn. lra.
  - cbn. discriminate.
Defined.

Lemma float_range_inverse : float_underflow < / float_overflow.
Proof.
  unfold float_underflow, float_overflow. apply Rinv_lt_contravar.
  - apply Rmult_lt_0_compat; apply (IZR_lt 0); vm_compute; reflexivity.
  - apply IZR_lt. vm_compute. reflexivity.
Qed.

(** X5: a schedule built with the dataclass defaults ([s0 = 1],
    [p = 0.5], counter 0, and [lambda_ = 0.001] unless given) returns the
    float of [lambda_ / sqrt(i + 2)] at its call number [i], counted from
    0, for as many calls as the float range has integers. *)
Theorem X5_default_schedule_is_inverse_square_root
    (lam : option R) (k : nat) :
  INR k + 1 < float_overflow ->
  fst (calls k (LearningRate__init__ lam None None None))
  = map (fun i => Ok (Float (fl (default (1 / 1000) lam / sqrt (INR i + 2)))))
        (seq 0 k).
Proof.
  intros Hk. unfold LearningRate__init__. cbn [default].
  pose proof float_overflow_large as Hbig.
  pose proof float_range_inverse as Hinv.
  assert (Hk0 : 0 <= INR k) by apply pos_INR.
  assert (HkZ : IZR (0 + Z.of_nat k) = INR k)
    by (rewrite Z.add_0_l, <- INR_IZR_INZ; reflexivity).
  rewrite calls_outcome.
  - apply map_ext. intros i. do 3 f_equal. unfold rate_formula.
    cbn [num_value].
    assert (Hi : 0 <= INR i) by apply pos_INR.
    replace (IZR (0 + 1 + Z.of_nat i)) with (INR i + 1)
      by (rewrite !plus_IZR, <- INR_IZR_INZ; lra).
    replace (1 / (1 + (INR i + 1))) with (/ (INR i + 2)) by (field; lra).
    replace (1 / 2) with (/ 2) by lra.
    rewrite Rpower_sqrt by (apply Rinv_0_lt_compat; lra).
    rewrite sqrt_inv. reflexivity.
  - exact I.
  - cbn. lra.
  - lia.
  - lra.
  - cbn [num_value]. rewrite HkZ. lra.
  - cbn [num_value]. rewrite HkZ.
    eapply Rlt_trans; [exact Hinv|].
    unfold Rdiv. rewrite Rmult_1_l.
    apply Rinv_lt_contravar; [|lra].
    apply Rmult_lt_0_compat; lra.
Qed.

Lemma X5_witness :
  fst (calls 2 (LearningRate__init__ (Some (1 / 10)) None None None))
  = [Ok (Float (fl (default (1 / 1000) (Some (1 / 10)) / sqrt (INR 0 + 2))));
     Ok (Float (fl (default (1 / 1000) (Some (1 / 10)) / sqrt (INR 1 + 2))))].
Proof.
  apply (X5_default_schedule_is_inverse_square_root (Some (1 / 10)) 2).
  pose proof float_overflow_large. cbn [INR]. lra.
Defined.

Lemma calls_lookup_call
    (k i : nat) (sched : LearningRate) (r : result number) :
  fst (calls k sched) !! i = Some r ->
  r = fst (LearningRate__call__
             {| lambda_ := lambda_ sched; s0 := s0 sched; p := p sched;
                iteration := (iteration sched + Z.of_nat i)%Z |}).
Proof.
  revert i sched. induction k as [|k IH]; intros i sched Hr; [discriminate|].
  rewrite calls_succ in Hr. cbn [fst] in Hr. destruct i as [|i].
  - cbn [lookup list_lookup] in Hr. injection Hr as <-.
    destruct sched as [lam a pw t]. cbn [lambda_ s0 p iteration].
    replace (t + Z.of_nat 0)%Z with t by lia. reflexivity.
  - cbn [lookup list_lookup] in Hr. apply IH in Hr. rewrite Hr.
    rewrite call_state. cbn [lambda_ s0 p iteration].
    replace (iteration sched + 1 + Z.of_nat i)%Z
      with (iteration sched + Z.of_nat (S i))%Z by lia.
    reflexivity.
Qed.

Lemma rate_small (lam s pw eps : R) :
  0 < s -> 0 < pw -> 0 < eps ->
  exists N : nat, forall t : Z,
    (Z.of_nat N <= t)%Z -> Rabs (rate_formula lam s pw t) < eps.
Proof.
  intros Hs Hp He.
  assert (Ha : 0 <= Rabs lam) by apply Rabs_pos.
  set (delta := eps / (Rabs lam + 1)).
  assert (Hdelta : 0 < delta) by (apply Rdiv_lt_0_compat; lra).
  assert (Hde : delta * (Rabs lam + 1) = eps) by (unfold delta; field; lra).
  set (c := Rpower delta (/ pw)).
  assert (Hc : 0 < c) by (unfold c, Rpower; apply exp_pos).
  assert (Hcp : Rpower c pw = delta).
  { unfold c. rewrite Rpower_mult, Rinv_l by lra. apply Rpower_1, Hdelta. }
  exists (Z.to_nat (up (s / c))). intros t Ht.
  destruct (archimed (s / c)) as [Hup _].
  assert (Hsc : 0 < s / c) by (apply Rdiv_lt_0_compat; assumption).
  assert (Hut : IZR (up (s / c)) <= IZR t) by (apply IZR_le; lia).
  assert (Hlt : s / c < IZR t) by lra.
  assert (Hst : s < c * IZR t).
  { apply (Rmult_lt_compat_r c) in Hlt; [|exact Hc].
    unfold Rdiv in Hlt. rewrite Rmult_assoc, Rinv_l in Hlt by lra. lra. }
  assert (Hden : 0 < s + IZR t) by lra.
  assert (Hy : 0 < s / (s + IZR t)) by (apply Rdiv_lt_0_compat; lra).
  assert (Hyc : s / (s + IZR t) < c).
  { apply (Rmult_lt_reg_r (s + IZR t)); [exact Hden|].
    unfold Rdiv. rewrite Rmult_assoc, Rinv_l by lra. nra. }
  assert (Hpow : Rpower (s / (s + IZR t)) pw < delta).
  { rewrite <- Hcp. apply Rlt_Rpower_l; [exact Hp|]. split; assumption. }
  assert (Hpos : 0 < Rpower (s / (s + IZR t)) pw)
    by (unfold Rpower; apply exp_pos).
  unfold rate_formula. rewrite Rabs_mult, (Rabs_pos_eq (Rpower _ _)) by lra.
  nra.
Qed.

(** X6: for an int [s0 > 0] (the default is the int 1), a counter that is
    not negative and [p > 0] the rates tend to 0: below any [eps > 0] from
    some call on, every call returns a finite float of absolute value
    below [eps], whatever [lambda_] is. *)
Theorem X6_rates_tend_to_zero (sched : LearningRate) (eps : R) :
  is_float (s0 sched) = false -> 0 < num_value (s0 sched) ->
  (0 <= iteration sched)%Z -> 0 < p sched -> 0 < eps ->
  exists N : nat, forall k i r,
    (N <= i)%nat ->
    fst (calls k sched) !! i = Some r ->
    exists x, r = Ok (Real x) /\ Rabs x < eps.
Proof.
  destruct sched as [lam a pw t]. cbn [lambda_ s0 p iteration].
  intros Hint Hs Ht Hp He.
  pose proof float_overflow_large as Hbig.
  destruct (rate_small lam (num_value a) pw (Rmin eps 1000) Hs Hp
              ltac:(apply Rmin_pos; lra)) as [N HN].
  exists N. intros k i r Hi Hr.
  apply calls_lookup_call in Hr. cbn [lambda_ s0 p iteration] in Hr.
  assert (Hf : finite_num a) by (destruct a; [exact I|discriminate]).
  destruct (call_bounded lam a pw (t + Z.of_nat i) Hf Hs ltac:(lia)
              ltac:(lra) ltac:(rewrite Hint; discriminate))
    as (w & Hw & [Hw0 Hw1] & Hwle & _).
  specialize (Hwle Hp). rewrite Hw in Hr. subst r.
  specialize (HN (t + Z.of_nat i + 1)%Z ltac:(lia)).
  unfold rate_formula in HN. rewrite Rabs_mult in HN.
  assert (Hpw : 0 < Rpower (num_value a / (num_value a + IZR (t + Z.of_nat i + 1))) pw)
    by (unfold Rpower; apply exp_pos).
  rewrite (Rabs_pos_eq (Rpower _ _)) in HN by lra.
  assert (Hlw : Rabs (lam * w) < Rmin eps 1000).
  { rewrite Rabs_mult, (Rabs_pos_eq w) by lra.
    eapply Rle_lt_trans; [|exact HN].
    apply Rmult_le_compat_l; [apply Rabs_pos|exact Hwle]. }
  pose proof (Rmin_l eps 1000). pose proof (Rmin_r eps 1000).
  rewrite fl_below_overflow by lra.
  exists (flush (lam * w)). split; [reflexivity|].
  pose proof (flush_abs_le (lam * w)). lra.
Qed.

Lemma X6_witness :
  exists N : nat, forall k i r,
    (N <= i)%nat ->
    fst (calls k lr0) !! i = Some r ->
    exists x, r = Ok (Real x) /\ Rabs x < 1 / 100.
Proof.
  apply (X6_rates_tend_to_zero lr0 (1 / 100)).
  - reflexivity.
  - cbn. lra.
  - cbn. lia.
  - cbn. lra.
  - lra.
Defined.

(** ** Construction *)

(** [np.random.rand] succeeds exactly on a dimension that is not negative,
    is allowed by numpy and can be allocated. *)
Lemma rand_outcome (d : Z) (g : np_random_state) :
  np_random_rand d g =
  if ((0 <=? d) && (d <=? max_floats) && (d <=? capacity g))%Z
  then (Ok (fresh_weights d g),
        {| samples := samples g; taken := (taken g + Z.to_nat d)%nat;
           capacity := capacity g |})
  else (Raise (if (d <? 0)%Z
               then ValueError "negative dimensions are not allowed"
               else if (max_intp <? d)%Z
               then ValueError "Maximum allowed dimension exceeded"
               else if (max_floats <? d)%Z
               then ValueError "array is too big"
               else MemoryError), g).
Proof.
  unfold np_random_rand, fresh_weights.
  assert (Hm : (max_floats <= max_intp)%Z) by (vm_compute; discriminate).
  destruct (Z.ltb_spec d 0), (Z.ltb_spec max_intp d),
    (Z.ltb_spec max_floats d), (Z.ltb_spec (capacity g) d),
    (Z.leb_spec 0 d), (Z.leb_spec d max_floats),
    (Z.leb_spec d (capacity g)); try lia; reflexivity.
Qed.

(** The outcome of a constructor call in closed form. *)
Lemma construct_outcome (c : class) (kw : kwargs) (g : np_random_state) :
  construct c kw g =
  match kw_dimension kw with
  | Some d =>
      if accepts c kw then
        match np_random_rand d g with
        | (Ok weights, g') =>
            (Ok {| a_w := weights;
                   a_lr := {| lambda_ := default (1 / 1000) (kw_lambda_ kw);
                              s0 := PyInt 1; p := 1 / 2; iteration := 0 |};
                   a_loss_function := default MSE (kw_loss_function kw);
                   a_batch_size :=
                     if is_stochastic c
                     then Some (default 50%Z (kw_batch_size kw)) else None;
                   a_mu :=
                     if is_regularized c
                     then Some (default 0 (kw_mu kw)) else None |},
             g')
        | (Raise e, g') => (Raise e, g')
        end
      else (Raise TypeError, g)
  | None => (Raise TypeError, g)
  end.
Proof.
  destruct kw as [[d|] lam lf [bs|] [m|] [|o os]]; destruct c;
    try reflexivity;
    unfold construct; cbn [mro resolve__init__];
    unfold BaseDescentReg__init__, StochasticDescent__init__,
      BaseDescent__init__;
    cbn [kw_dimension kw_lambda_ kw_loss_function kw_batch_size kw_mu
         kw_other];
    destruct (np_random_rand d g) as [[ws|e] g']; reflexivity.
Qed.

(** The two cases of a constructor call that reaches [np.random.rand]. *)
Lemma construct_cases (c : class) (kw : kwargs) (g : np_random_state) :
  construct c kw g =
  match kw_dimension kw with
  | Some d =>
      if accepts c kw then
        if ((0 <=? d) && (d <=? max_floats) && (d <=? capacity g))%Z
        then
          (Ok {| a_w := fresh_weights d g;
                 a_lr := {| lambda_ := default (1 / 1000) (kw_lambda_ kw);
                            s0 := PyInt 1; p := 1 / 2; iteration := 0 |};
                 a_loss_function := default MSE (kw_loss_function kw);
                 a_batch_size :=
                   if is_stochastic c
                   then Some (default 50%Z (kw_batch_size kw)) else None;
                 a_mu :=
                   if is_regularized c
                   then Some (default 0 (kw_mu kw)) else None |},
           {| samples := samples g; taken := (taken g + Z.to_nat d)%nat;
              capacity := capacity g |})
        else
          (Raise (if (d <? 0)%Z
                  then ValueError "negative dimensions are not allowed"
                  else if (max_intp <? d)%Z
                  then ValueError "Maximum allowed dimension exceeded"
                  else if (max_floats <? d)%Z
                  then ValueError "array is too big"
                  else MemoryError), g)
      else (Raise TypeError, g)
  | None => (Raise TypeError, g)
  end.
Proof.
  rewrite construct_outcome.
  destruct (kw_dimension kw) as [d|]; [|reflexivity].
  destruct (accepts c kw); [|reflexivity].
  rewrite rand_outcome.
  destruct ((0 <=? d) && (d <=? max_floats) && (d <=? capacity g))%Z;
    reflexivity.
Qed.

(** X7: a constructor call succeeds exactly when no keyword is foreign to
    the class ([batch_size] only with [StochasticDescent] in the
    resolution order, [mu] only with [BaseDescentReg], no other name) and
    [dimension] is given, is not negative and is no more than numpy allows
    and the process can allocate.  Nothing else is checked: [lambda_],
    [batch_size] and [mu] may be any number. *)
Theorem X7_construct_succeeds_iff
    (c : class) (kw : kwargs) (g : np_random_state) :
  (exists a g', construct c kw g = (Ok a, g')) <->
  accepts c kw = true /\
  exists d, kw_dimension kw = Some d /\
            (0 <= d)%Z /\ (d <= max_floats)%Z /\ (d <= capacity g)%Z.
Proof.
  rewrite construct_cases.
  destruct (kw_dimension kw) as [d|].
  - destruct (accepts c kw).
    + destruct (Z.leb_spec 0 d), (Z.leb_spec d max_floats),
        (Z.leb_spec d (capacity g)); cbn [andb];
        (split;
         [first [ intros (a & g' & Heq); discriminate Heq
                | intros _; split; [reflexivity|]; exists d;
                  repeat split; assumption ]
         |first [ intros (_ & d' & [= <-] & ? & ? & ?); lia
                | intros _; eauto ]]).
    + split; [intros (a & g' & [=])|intros ([=] & _)].
  - split; [intros (a & g' & [=])|intros (_ & d & [=] & _)].
Qed.

(** X8: a constructor call that fails has taken nothing from numpy's
    generator.  It fails with [TypeError] when a keyword is foreign to the
    class or [dimension] is missing, and otherwise with the error of
    [np.random.rand]: a [ValueError] for a negative [dimension] or one
    beyond what numpy allows, a [MemoryError] for one the process cannot
    allocate. *)
Theorem X8_failed_construct_keeps_generator
    (c : class) (kw : kwargs) (g g' : np_random_state) (e : exn) :
  construct c kw g = (Raise e, g') ->
  g' = g /\
  ((e = TypeError /\ (accepts c kw = false \/ kw_dimension kw = None)) \/
   (accepts c kw = true /\
    exists d, kw_dimension kw = Some d /\
      (((d < 0)%Z /\ e = ValueError "negative dimensions are not allowed") \/
       ((max_intp < d)%Z /\
        e = ValueError "Maximum allowed dimension exceeded") \/
       ((max_floats < d <= max_intp)%Z /\ e = ValueError "array is too big") \/
       ((0 <= d <= max_floats)%Z /\ (capacity g < d)%Z /\ e = MemoryError)))).
Proof.
  rewrite construct_cases.
  destruct (kw_dimension kw) as [d|]; [|intros [= <- <-]; auto].
  destruct (accepts c kw); [|intros [= <- <-]; auto].
  assert (Hm : (max_floats <= max_intp)%Z) by (vm_compute; discriminate).
  destruct (Z.leb_spec 0 d), (Z.leb_spec d max_floats),
    (Z.leb_spec d (capacity g)); cbn [andb]; try discriminate;
    intros [= <- <-]; (split; [reflexivity|]); right;
    (split; [reflexivity|]); exists d; (split; [reflexivity|]);
    destruct (Z.ltb_spec d 0), (Z.ltb_spec max_intp d),
      (Z.ltb_spec max_floats d); try lia;
    solve [ left; split; [lia|reflexivity]
          | right; left; split; [lia|reflexivity]
          | right; right; left; split; [lia|reflexivity]
          | right; right; right; repeat split; lia ].
Qed.

Lemma X8_witness :
  g_half = g_half /\
  ((MemoryError = TypeError /\
    (accepts VanillaGradientDescent_cls (kw_dim 2000) = false \/
     kw_dimension (kw_dim 2000) = None)) \/
   (accepts VanillaGradientDescent_cls (kw_dim 2000) = true /\
    exists d, kw_dimension (kw_dim 2000) = Some d /\
      (((d < 0)%Z /\
        MemoryError = ValueError "negative dimensions are not allowed") \/
       ((max_intp < d)%Z /\
        MemoryError = ValueError "Maximum allowed dimension exceeded") \/
       ((max_floats < d <= max_intp)%Z /\
        MemoryError = ValueError "array is too big") \/
       ((0 <= d <= max_floats)%Z /\ (capacity g_half < d)%Z /\
        MemoryError = MemoryError)))).
Proof.
  apply (X8_failed_construct_keeps_generator VanillaGradientDescent_cls
           (kw_dim 2000) g_half g_half MemoryError).
  reflexivity.
Defined.

Lemma fresh_weights_length (d : Z) (g : np_random_state) :
  length (fresh_weights d g) = Z.to_nat d.
Proof. unfold fresh_weights. rewrite length_map, length_seq. reflexivity. Qed.

Lemma nth_map_seq (f : nat -> R) (n i : nat) :
  (i < n)%nat -> nth i (map f (seq 0 n)) 0 = f i.
Proof.
  intros Hi.
  rewrite (nth_indep _ 0 (f O)) by (rewrite length_map, length_seq; exact Hi).
  rewrite (map_nth f), seq_nth by exact Hi. reflexivity.
Qed.

(** X9: a successful constructor call of any class sets a weight vector of
    [dimension] entries, the next [dimension] samples of numpy's generator
    in order, each in [[0, 1)] when the generator's samples are, and leaves
    the generator advanced by exactly that many. *)
Theorem X9_construct_draws_the_weights
    (c : class) (kw : kwargs) (g g' : np_random_state) (a : attributes) :
  construct c kw g = (Ok a, g') ->
  exists d,
    kw_dimension kw = Some d /\
    length (a_w a) = Z.to_nat d /\
    (forall i, (i < Z.to_nat d)%nat ->
               nth i (a_w a) 0 = samples g (taken g + i)%nat) /\
    samples g' = samples g /\ taken g' = (taken g + Z.to_nat d)%nat /\
    ((forall i, 0 <= samples g i < 1) ->
     Forall (fun x => 0 <= x < 1) (a_w a)).
Proof.
  rewrite construct_cases.
  destruct (kw_dimension kw) as [d|]; [|discriminate].
  destruct (accepts c kw); [|discriminate].
  destruct ((0 <=? d) && (d <=? max_floats) && (d <=? capacity g))%Z;
    [|discriminate].
  intros [= <- <-].
  exists d. cbn [a_w samples taken].
  split; [reflexivity|]. split; [apply fresh_weights_length|].
  split; [|split; [reflexivity|split; [reflexivity|]]].
  - intros i Hi. unfold fresh_weights.
    apply (nth_map_seq (fun i => samples g (taken g + i)%nat)), Hi.
  - intros Hs. unfold fresh_weights. apply Forall_forall.
    intros x Hx. apply list_elem_of_In, in_map_iff in Hx as (i & <- & _).
    apply Hs.
Qed.

Lemma X9_witness :
  exists d,
    kw_dimension (kw_dim 2) = Some d /\
    length [1 / 2; 1 / 2] = Z.to_nat d /\
    (forall i, (i < Z.to_nat d)%nat ->
               nth i [1 / 2; 1 / 2] 0 = samples g_half (taken g_half + i)%nat) /\
    samples {| samples := fun _ => 1 / 2; taken := 2; capacity := 1000 |} = samples g_half /\
    taken {| samples := fun _ => 1 / 2; taken := 2; capacity := 1000 |}
      = (taken g_half + Z.to_nat d)%nat /\
    ((forall i, 0 <= samples g_half i < 1) ->
     Forall (fun x => 0 <= x < 1) [1 / 2; 1 / 2]).
Proof.
  apply (X9_construct_draws_the_weights StochasticDescentReg_cls (kw_dim 2)
           g_half {| samples := fun _ => 1 / 2; taken := 2; capacity := 1000 |}
           {| a_w := [1 / 2; 1 / 2]; a_lr := lr0; a_loss_function := MSE;
              a_batch_size := Some 50%Z; a_mu := Some 0 |}).
  reflexivity.
Defined.

(** X10: a successful constructor call starts the schedule at counter 0
    with [s0 = 1] and [p = 0.5] and the given [lambda_] (0.001 if none),
    stores the given loss kind ([MSE] if none), sets [batch_size] (50 if
    none) exactly on the classes with [StochasticDescent], and [mu] (0 if
    none) exactly on the classes with [BaseDescentReg]. *)
Theorem X10_construct_sets_the_defaults
    (c : class) (kw : kwargs) (g g' : np_random_state) (a : attributes) :
  construct c kw g = (Ok a, g') ->
  a_lr a = {| lambda_ := default (1 / 1000) (kw_lambda_ kw);
              s0 := PyInt 1; p := 1 / 2; iteration := 0 |} /\
  a_loss_function a = default MSE (kw_loss_function kw) /\
  a_batch_size a =
    (if is_stochastic c then Some (default 50%Z (kw_batch_size kw)) else None) /\
  a_mu a = (if is_regularized c then Some (default 0 (kw_mu kw)) else None).
Proof.
  rewrite construct_cases.
  destruct (kw_dimension kw) as [d|]; [|discriminate].
  destruct (accepts c kw); [|discriminate].
  destruct ((0 <=? d) && (d <=? max_floats) && (d <=? capacity g))%Z;
    [|discriminate].
  intros [= <- <-].
  repeat split.
Qed.

Lemma X10_witness :
  lr0 = {| lambda_ := default (1 / 1000) (kw_lambda_ (kw_dim 2));
           s0 := PyInt 1; p := 1 / 2; iteration := 0 |} /\
  MSE = default MSE (kw_loss_function (kw_dim 2)) /\
  Some 50%Z =
    (if is_stochastic StochasticDescentReg_cls
     then Some (default 50%Z (kw_batch_size (kw_dim 2))) else None) /\
  Some 0 = (if is_regularized StochasticDescentReg_cls
            then Some (default 0 (kw_mu (kw_dim 2))) else None).
Proof.
  apply (X10_construct_sets_the_defaults StochasticDescentReg_cls (kw_dim 2)
           g_half {| samples := fun _ => 1 / 2; taken := 2; capacity := 1000 |}
           {| a_w := [1 / 2; 1 / 2]; a_lr := lr0; a_loss_function := MSE;
              a_batch_size := Some 50%Z; a_mu := Some 0 |}).
  reflexivity.
Defined.

(** X11: an object built with [dimension = d] predicts exactly on
    matrices with [d] columns, one value per row, and raises numpy's shape
    error on any other matrix. *)
Theorem X11_fresh_instance_predicts_on_dimension_columns
    (c : class) (kw : kwargs) (g g' : np_random_state) (a : attributes)
    (X : matrix) (st : world) :
  construct c kw g = (Ok a, g') ->
  describes c a (inst st) ->
  exists d,
    kw_dimension kw = Some d /\
    BaseDescent.predict X st =
      (if (ncols X =? Z.to_nat d)%nat
       then Ok (map (fun r => dot r (a_w a)) (rows X))
       else Raise np.mismatch,
       st).
Proof.
  rewrite construct_cases.
  destruct (kw_dimension kw) as [d|]; [|discriminate].
  destruct (accepts c kw); [|discriminate].
  destruct ((0 <=? d) && (d <=? max_floats) && (d <=? capacity g))%Z;
    [|discriminate].
  intros [= <- <-].
  intros (_ & Hw & _). cbn [a_w] in *.
  exists d. split; [reflexivity|].
  rewrite predict_outcome, Hw, fresh_weights_length. reflexivity.
Qed.

Lemma X11_witness :
  exists d,
    kw_dimension (kw_dim 2) = Some d /\
    BaseDescent.predict X3 (world0 StochasticDescentReg_cls [1 / 2; 1 / 2] 50 0) =
      (if (ncols X3 =? Z.to_nat d)%nat
       then Ok (map (fun r => dot r [1 / 2; 1 / 2]) (rows X3))
       else Raise np.mismatch,
       world0 StochasticDescentReg_cls [1 / 2; 1 / 2] 50 0).
Proof.
  apply (X11_fresh_instance_predicts_on_dimension_columns
           StochasticDescentReg_cls (kw_dim 2)
           g_half {| samples := fun _ => 1 / 2; taken := 2; capacity := 1000 |}
           {| a_w := [1 / 2; 1 / 2]; a_lr := lr0; a_loss_function := MSE;
              a_batch_size := Some 50%Z; a_mu := Some 0 |}
           X3 (world0 StochasticDescentReg_cls [1 / 2; 1 / 2] 50 0)).
  - reflexivity.
  - unfold describes. cbn.
    repeat split; intros ? [= <-]; reflexivity.
Defined.


(** ** Loss and prediction on every shape *)

(** [calc_loss] is the pure computation below on the weights, and leaves
    the world as it was. *)
Lemma calc_loss_pure (X : matrix) (y : vec) (st : world) :
  BaseDescent.calc_loss X y st =
  (yhat ← np.matmul X (w (inst st));
   diff ← broadcast Rminus y yhat;
   c ← truediv 1 (INR (length y));
   d ← np.matmul1 diff diff;
   mret (c * d),
   st).
Proof.
  unfold BaseDescent.calc_loss, BaseDescent.predict, mbind, M_bind, self, lift.
  destruct (np.matmul X (w (inst st))) as [yhat|e]; [|reflexivity].
  cbn [result_bind]. destruct (broadcast Rminus y yhat) as [diff|e]; [|reflexivity].
  cbn [result_bind]. destruct (truediv 1 (INR (length y))) as [c|e]; [|reflexivity].
  cbn [result_bind]. unfold np.transpose1.
  destruct (np.matmul1 diff diff) as [d|e]; reflexivity.
Qed.

(** X12: [calc_loss] on no targets divides by zero: with [y] empty and
    [X] of at most one row (so that the subtraction broadcasts) it raises
    [ZeroDivisionError]. *)
Theorem X12_calc_loss_of_empty_target_divides_by_zero
    (X : matrix) (st : world) :
  ncols X = length (w (inst st)) ->
  (nrows X <= 1)%nat ->
  BaseDescent.calc_loss X [] st = (Raise ZeroDivisionError, st).
Proof.
  intros Hc Hn. rewrite calc_loss_pure. f_equal.
  unfold np.matmul. rewrite Hc, Nat.eqb_refl. cbn [mbind result_bind].
  unfold nrows in Hn. unfold broadcast. rewrite length_map.
  destruct (rows X) as [|r [|r' rs]]; cbn in Hn; [| |lia].
  - cbn. unfold truediv. destruct (Req_dec_T 0 0); [reflexivity|contradiction].
  - cbn. unfold truediv. destruct (Req_dec_T 0 0); [reflexivity|contradiction].
Qed.

Lemma X12_witness :
  BaseDescent.calc_loss {| ncols := 2; rows := [] |} []
    (world0 BaseDescent_cls [0; 0] 50 0)
  = (Raise ZeroDivisionError, world0 BaseDescent_cls [0; 0] 50 0).
Proof.
  apply (X12_calc_loss_of_empty_target_divides_by_zero
           {| ncols := 2; rows := [] |} (world0 BaseDescent_cls [0; 0] 50 0)).
  - reflexivity.
  - cbn. lia.
Defined.

(** X13: the length of [y] is not checked against the rows of [X].  A
    single target is broadcast against all [n] predictions, and since the
    divisor is the length of [y], which is 1, the result is the sum of the
    [n] squared residuals and not their mean. *)
Theorem X13_calc_loss_broadcasts_a_single_target
    (X : matrix) (y0 : R) (st : world) :
  ncols X = length (w (inst st)) ->
  BaseDescent.calc_loss X [y0] st =
  (Ok (1 / 1 *
       dot (map (fun b => y0 - b) (map (fun r => dot r (w (inst st))) (rows X)))
           (map (fun b => y0 - b) (map (fun r => dot r (w (inst st))) (rows X)))),
   st).
Proof.
  intros Hc. rewrite calc_loss_pure. f_equal.
  unfold np.matmul. rewrite Hc, Nat.eqb_refl. cbn [mbind result_bind].
  set (yhat := map (fun r => dot r (w (inst st))) (rows X)).
  assert (Hb : broadcast Rminus [y0] yhat = Ok (map (fun b => y0 - b) yhat)).
  { unfold broadcast. cbn [length hd].
    destruct yhat as [|a [|a' l]]; reflexivity. }
  rewrite Hb. cbn [mbind result_bind length INR].
  unfold truediv. destruct (Req_dec_T 1 0) as [E|_]; [lra|].
  cbn [mbind result_bind]. unfold np.matmul1. rewrite Nat.eqb_refl.
  reflexivity.
Qed.

Lemma X13_witness :
  BaseDescent.calc_loss X3 [1] (world0 BaseDescent_cls [0; 0] 50 0) =
  (Ok (1 / 1 *
       dot (map (fun b => 1 - b) (map (fun r => dot r [0; 0]) (rows X3)))
           (map (fun b => 1 - b) (map (fun r => dot r [0; 0]) (rows X3)))),
   world0 BaseDescent_cls [0; 0] 50 0).
Proof.
  apply (X13_calc_loss_broadcasts_a_single_target X3 1
           (world0 BaseDescent_cls [0; 0] 50 0)).
  reflexivity.
Defined.

(** X14: the shape errors of [calc_loss] are numpy's own.  A column count
    that differs from the number of weights raises the [matmul] error of
    [predict]; with matching columns, a target whose length is neither the
    number of rows nor 1, against more or fewer than one row, raises the
    broadcasting error of the subtraction.  The world is unchanged. *)
Theorem X14_calc_loss_shape_errors (X : matrix) (y : vec) (st : world) :
  (ncols X <> length (w (inst st)) ->
   BaseDescent.calc_loss X y st = (Raise np.mismatch, st)) /\
  (ncols X = length (w (inst st)) ->
   length y <> nrows X -> length y <> 1%nat -> nrows X <> 1%nat ->
   BaseDescent.calc_loss X y st =
   (Raise (ValueError "operands could not be broadcast together"), st)).
Proof.
  split.
  - intros Hc. rewrite calc_loss_pure. f_equal. unfold np.matmul.
    apply Nat.eqb_neq in Hc. rewrite Hc. reflexivity.
  - intros Hc Hy H1 Hn. rewrite calc_loss_pure. f_equal. unfold np.matmul.
    rewrite Hc, Nat.eqb_refl. cbn [mbind result_bind].
    unfold broadcast. rewrite length_map. fold (nrows X).
    apply Nat.eqb_neq in Hy, H1, Hn. rewrite Hy, H1, Hn. reflexivity.
Qed.

Lemma X14_witness :
  BaseDescent.calc_loss X13 [1] (world0 BaseDescent_cls [0; 0] 50 0)
    = (Raise np.mismatch, world0 BaseDescent_cls [0; 0] 50 0) /\
  BaseDescent.calc_loss X3 [1; 1] (world0 BaseDescent_cls [0; 0] 50 0)
    = (Raise (ValueError "operands could not be broadcast together"),
       world0 BaseDescent_cls [0; 0] 50 0).
Proof.
  split.
  - apply (X14_calc_loss_shape_errors X13 [1]
             (world0 BaseDescent_cls [0; 0] 50 0)).
    cbn. lia.
  - apply (X14_calc_loss_shape_errors X3 [1; 1]
             (world0 BaseDescent_cls [0; 0] 50 0)); cbn; lia.
Defined.

(** X15: [predict] and [calc_loss] read the weights and nothing else, and
    change nothing: two objects with the same weights give the same
    outcome whatever their class, schedule, [loss_function], [batch_size]
    and [mu] are.  In particular the loss is the squared-error one for
    each of the four loss kinds. *)
Theorem X15_loss_and_prediction_depend_on_weights_only
    (X : matrix) (y : vec) (st1 st2 : world) :
  w (inst st1) = w (inst st2) ->
  fst (BaseDescent.predict X st1) = fst (BaseDescent.predict X st2) /\
  fst (BaseDescent.calc_loss X y st1) = fst (BaseDescent.calc_loss X y st2) /\
  snd (BaseDescent.predict X st1) = st1 /\
  snd (BaseDescent.calc_loss X y st1) = st1.
Proof.
  intros Hw. rewrite !predict_outcome, !calc_loss_pure, Hw.
  repeat split.
Qed.

Lemma X15_witness :
  fst (BaseDescent.predict X3 (world0 BaseDescent_cls [1; 1] 50 0))
    = fst (BaseDescent.predict X3
             {| inst := {| cls := StochasticDescentReg_cls; w := [1; 1];
                           lr := lr_zero; loss_function := Huber;
                           batch_size := 7; mu := 3 |};
                rng := rng0 |}) /\
  fst (BaseDescent.calc_loss X3 y3 (world0 BaseDescent_cls [1; 1] 50 0))
    = fst (BaseDescent.calc_loss X3 y3
             {| inst := {| cls := StochasticDescentReg_cls; w := [1; 1];
                           lr := lr_zero; loss_function := Huber;
                           batch_size := 7; mu := 3 |};
                rng := rng0 |}) /\
  snd (BaseDescent.predict X3 (world0 BaseDescent_cls [1; 1] 50 0))
    = world0 BaseDescent_cls [1; 1] 50 0 /\
  snd (BaseDescent.calc_loss X3 y3 (world0 BaseDescent_cls [1; 1] 50 0))
    = world0 BaseDescent_cls [1; 1] 50 0.
Proof.
  apply (X15_loss_and_prediction_depend_on_weights_only X3 y3
           (world0 BaseDescent_cls [1; 1] 50 0)
           {| inst := {| cls := StochasticDescentReg_cls; w := [1; 1];
                         lr := lr_zero; loss_function := Huber;
                         batch_size := 7; mu := 3 |};
              rng := rng0 |}).
  reflexivity.
Defined.

(** ** [step] and [update_weights] on every class *)

(** X17: [step] returns a weight difference on no class of the module: it
    returns [None] on [BaseDescent] and raises on the five others, and on
    every class it leaves all attributes of the object, the weights and
    the schedule counter among them, as they were. *)
Theorem X17_step_on_every_class (X : matrix) (y : vec) (st : world) :
  fst (step X y st) =
    match cls (inst st) with
    | BaseDescent_cls => Ok VNone
    | VanillaGradientDescent_cls | VanillaGradientDescentReg_cls =>
        Raise (AttributeError "numpy" "matmult")
    | StochasticDescent_cls | StochasticDescentReg_cls =>
        Raise (if (batch_size (inst st) <=? 1)%Z then IndexError
               else if (random.maxsize <? batch_size (inst st) - 1)%Z
                    then OverflowError else TypeError)
    | BaseDescentReg_cls => Raise TypeError
    end /\
  inst (snd (step X y st)) = inst st.
Proof.
  split; [|apply step_inst].
  rewrite step_unfold, calc_gradient_dispatch.
  destruct (cls (inst st)) eqn:Hc; cbn [mro resolve_calc_gradient].
  - cbn. rewrite update_weights_dispatch, Hc. reflexivity.
  - reflexivity.
  - rewrite Stochastic_calc_gradient_outcome.
    destruct (batch_size (inst st) <=? 1)%Z; [reflexivity|].
    destruct (random.maxsize <? batch_size (inst st) - 1)%Z; reflexivity.
  - rewrite Reg_calc_gradient_outcome. reflexivity.
  - rewrite Reg_calc_gradient_outcome. reflexivity.
  - rewrite Reg_calc_gradient_outcome, Stochastic_calc_gradient_outcome.
    destruct (batch_size (inst st) <=? 1)%Z; [reflexivity|].
    destruct (random.maxsize <? batch_size (inst st) - 1)%Z; reflexivity.
Qed.

(** X18: [update_weights] called on its own ignores the gradient on every
    class: it returns [None] on the two classes that inherit the abstract
    method and raises [TypeError] on the four with the full-batch method,
    and in both cases changes nothing, so the weights never move. *)
Theorem X18_update_weights_on_every_class (g : value) (st : world) :
  update_weights g st =
    (match cls (inst st) with
     | BaseDescent_cls | BaseDescentReg_cls => Ok VNone
     | _ => Raise TypeError
     end, st).
Proof.
  rewrite update_weights_dispatch.
  destruct (cls (inst st)); reflexivity.
Qed.

(** ** A negative [s0] *)

Lemma fraction_not_integer (y : R) : 0 < y < 1 -> is_integer y = false.
Proof.
  intros [H0 H1]. unfold is_integer.
  destruct (Req_dec_T (IZR (Int_part y)) y) as [E|_]; [|reflexivity].
  exfalso. rewrite <- E in H0, H1.
  apply (lt_IZR 0) in H0. apply (lt_IZR _ 1) in H1. lia.
Qed.

Lemma Rpower_fraction_bounded (u y : R) :
  0 < u -> 0 < y < 1 -> Rpower u y <= Rmax 1 u.
Proof.
  intros Hu [H0 H1]. destruct (Rle_dec u 1) as [Hle|Hgt].
  - eapply Rle_trans; [apply Rpower_le_one; lra|apply Rmax_l].
  - eapply Rle_trans; [|apply Rmax_r]. left.
    rewrite <- (Rpower_1 u) at 2 by exact Hu.
    apply Rpower_lt; lra.
Qed.

(** X20: a negative float [s0] is accepted.  With a counter that a float
    holds exactly, a positive sum [s0 + iteration] and a quotient
    [s0 / (s0 + iteration)] that both stay well inside the float range,
    and a [p] strictly between 0 and 1, the quotient is negative and the
    call returns a complex number, not a float, and raises nothing. *)
Theorem X20_negative_s0_gives_complex_rate (sched : LearningRate) (x : R) :
  s0 sched = PyFloat (Fin x) -> x < 0 ->
  (0 <= iteration sched)%Z -> (iteration sched + 1 <= 2 ^ 53)%Z ->
  float_min <= x + IZR (iteration sched + 1) ->
  float_min <= - x / (x + IZR (iteration sched + 1)) ->
  2 * (- x / (x + IZR (iteration sched + 1))) < float_overflow ->
  0 < p sched < 1 ->
  exists re im, fst (LearningRate__call__ sched) = Ok (Complex re im).
Proof.
  destruct sched as [lam s pw t]. cbn [lambda_ s0 p iteration].
  intros -> Hx Ht Ht53 Hd Hq Hq2 Hp.
  pose proof float_min_above_underflow as Hmin.
  pose proof float_underflow_pos as Hu0.
  assert (HT : 1 <= IZR (t + 1) <= IZR (2 ^ 53))
    by (split; apply IZR_le; lia).
  assert (H53 : IZR (2 ^ 53) < float_overflow)
    by (unfold float_overflow; apply IZR_lt; vm_compute; reflexivity).
  set (T := IZR (t + 1)) in *.
  assert (Hquot : x / (x + T) = - (- x / (x + T))) by (field; lra).
  unfold LearningRate__call__. cbn [lambda_ s0 p iteration fst add_int].
  fold T. unfold float_of_int. fold T.
  destruct (Rle_dec float_overflow (Rabs T)) as [E|_].
  { rewrite Rabs_pos_eq in E by lra. lra. }
  cbn [mbind result_bind float_add py_truediv to_float].
  rewrite fl_below_overflow by (rewrite Rabs_pos_eq by lra; lra).
  rewrite flush_above_underflow by (rewrite Rabs_pos_eq by lra; lra).
  cbn [float_div].
  destruct (Req_dec_T (x + T) 0) as [E|_]; [lra|].
  rewrite fl_below_overflow
    by (rewrite Hquot, Rabs_Ropp, Rabs_pos_eq by lra; lra).
  rewrite flush_above_underflow
    by (rewrite Hquot, Rabs_Ropp, Rabs_pos_eq by lra; lra).
  cbn [mbind result_bind]. unfold float_pow.
  destruct (Req_dec_T pw 0) as [E|_]; [lra|].
  destruct (Req_dec_T (x / (x + T)) 0) as [E|_]; [lra|].
  destruct (Rlt_dec (x / (x + T)) 0) as [_|E]; [|lra].
  rewrite fraction_not_integer by exact Hp.
  unfold complex_pow.
  destruct (Rle_dec float_overflow (Rpower (- (x / (x + T))) pw)) as [E|_].
  { exfalso.
    assert (Hb := Rpower_fraction_bounded (- (x / (x + T))) pw).
    assert (Hmax : Rmax 1 (- (x / (x + T))) < float_overflow).
    { pose proof float_overflow_large.
      apply Rmax_case; lra. }
    specialize (Hb ltac:(lra) Hp). lra. }
  cbn [mret result_ret scale_number]. eauto.
Qed.

Lemma X20_witness :
  exists re im,
    fst (LearningRate__call__
           {| lambda_ := 1; s0 := PyFloat (Fin (- (1 / 2))); p := 1 / 2;
              iteration := 0 |})
    = Ok (Complex re im).
Proof.
  pose proof float_overflow_large as Hbig.
  pose proof float_min_small as Hsmall.
  apply (X20_negative_s0_gives_complex_rate
           {| lambda_ := 1; s0 := PyFloat (Fin (- (1 / 2))); p := 1 / 2;
              iteration := 0 |} (- (1 / 2))).
  - reflexivity.
  - lra.
  - cbn [iteration]. lia.
  - cbn [iteration]. vm_compute. discriminate.
  - cbn [iteration]. change (0 + 1)%Z with 1%Z. lra.
  - cbn [iteration]. change (0 + 1)%Z with 1%Z.
    replace (- - (1 / 2) / (- (1 / 2) + 1)) with 1 by field. lra.
  - cbn [iteration]. change (0 + 1)%Z with 1%Z.
    replace (- - (1 / 2) / (- (1 / 2) + 1)) with 1 by field. lra.
  - cbn [p]. lra.
Defined.
